(** * goengine: event store, persistence strategy and stream projector

    A shallow embedding of the parts of the goengine sources that the
    specification talks about:

    - [eventstore/postgres/aggregate_stream_strategy.go]
      ([SingleStreamStrategy]),
    - [eventstore/postgres/eventstore.go] ([EventStore]),
    - [eventstore.go] ([ReadEventStream]),
    - [driver/sql/postgres/projector_stream.go]
      ([StreamProjector.processNotification]),
    - [example/aggregate/main.go] ([BankAccount]).

    Conventions.  A Go function returning [(T, error)] becomes a function
    returning [T * option error], [None] standing for [nil].  Code that
    talks to a collaborator with effects (the database handle, the payload
    converter, an event stream, the projection executor) threads an
    explicit world [W] and returns the new world first.  Logging and the
    [context.Context] argument are not modelled: no value that the code
    inspects depends on them. *)

From Stdlib Require Import ZArith List String Ascii Lia Bool DecimalString.
From stdpp Require Import gmap.
Import ListNotations.

Open Scope Z_scope.

(** ** Go strings

    A Go string is modelled by the sequence of runes that ranging over it
    yields (an invalid byte yields U+FFFD).  [len s = 0] holds exactly when
    that sequence is empty.  String literals of the sources are ASCII and
    are written with [lit]. *)

Definition rune := Z.
Definition gostring := list rune.

Definition lit (s : string) : gostring :=
  map (fun a => Z.of_N (N_of_ascii a)) (list_ascii_of_string s).

(** [strconv.Itoa], and the verb [%d] of [fmt.Sprintf]. *)
Definition Itoa (i : Z) : gostring :=
  lit (NilZero.string_of_int (Z.to_int i)).

(** [strings.Join]. *)
Fixpoint Join (elems : list gostring) (sep : gostring) : gostring :=
  match elems with
  | [] => []
  | [e] => e
  | e :: rest => e ++ sep ++ Join rest sep
  end.

(** ** Errors

    The sentinel errors of the packages, and [Errorf] for every error made
    from a message ([errors.New], [fmt.Errorf], [errors.Errorf], and the
    errors of the database driver and of user code). *)

Inductive error : Type :=
| ErrEmptyStreamName
| ErrNoPayloadConverter
| ErrNoAggregateStreamStrategy
| ErrNoCreateTableQueries
| ErrNoDBConnect
| ErrNoMessageFactory
| ErrTableAlreadyExists
| ErrTableNameEmpty
| ErrInsufficientMoney
| Errorf (msg : gostring).

(** The method [Error()], which the verb [%s] prints. *)
Definition Error (e : error) : gostring :=
  match e with
  | ErrEmptyStreamName => lit "stream name cannot be empty"
  | ErrNoPayloadConverter => lit "payload converter should be provided"
  | ErrNoAggregateStreamStrategy => lit "no aggregate stream strategy provided"
  | ErrNoCreateTableQueries => lit "create table queries are not provided"
  | ErrNoDBConnect => lit "no DB connection provided"
  | ErrNoMessageFactory => lit "sql message factory should be provided"
  | ErrTableAlreadyExists => lit "table name could not be empty"
  | ErrTableNameEmpty => lit "table name could not be empty"
  | ErrInsufficientMoney => lit "insufficient money"
  | Errorf msg => msg
  end.

(** ** The two regular expressions of [GenerateTableName]

    Only two shapes of pattern occur: a character class repeated once or
    more, and the same anchored at the end of the text. *)

Inductive Regexp : Type :=
| ClassPlus (class : rune -> bool)
| ClassPlusEnd (class : rune -> bool).

(** Length of the longest run of runes of [class] at the head of [s]: what
    the greedy [+] consumes. *)
Fixpoint classRun (class : rune -> bool) (s : gostring) : nat :=
  match s with
  | [] => O
  | r :: t => if class r then S (classRun class t) else O
  end.

(** Length of the match of [re] that starts at the head of the remaining
    text [s], [O] when there is none (no pattern here matches the empty
    string).  For [ClassPlusEnd] the run must reach the end of the text:
    giving back runes of the run leaves a rune of the class in front of
    [$], which then fails. *)
Definition matchHere (re : Regexp) (s : gostring) : nat :=
  match re with
  | ClassPlus class => classRun class s
  | ClassPlusEnd class =>
      let n := classRun class s in
      if Nat.eqb n (length s) then n else O
  end.

(** [re.ReplaceAllString(src, repl)] for a [repl] without [$] expansions:
    the text is scanned from the left; at the leftmost position where the
    pattern matches the match is replaced and the scan goes on behind it.
    [skip] counts the runes of the current match still to be dropped. *)
Fixpoint replaceAllFrom (re : Regexp) (repl : gostring) (skip : nat)
    (src : gostring) : gostring :=
  match src with
  | [] => []
  | r :: t =>
      match skip with
      | S k => replaceAllFrom re repl k t
      | O =>
          match matchHere re src with
          | S n => repl ++ replaceAllFrom re repl n t
          | O => r :: replaceAllFrom re repl O t
          end
      end
  end.

Definition ReplaceAllString (re : Regexp) (src repl : gostring) : gostring :=
  replaceAllFrom re repl O src.

Definition inRange (lo hi r : rune) : bool := (lo <=? r) && (r <=? hi).

(** The class [[a-z0-9_]] and its complement [[^a-z0-9_]]. *)
Definition isAllowed (r : rune) : bool :=
  inRange 97 122 r || inRange 48 57 r || (r =? 95).

Definition isUnderscore (r : rune) : bool := r =? 95.

(** [regexp.Compile("_+$")] and [regexp.Compile("[^a-z0-9_]+")]; both
    patterns are well formed, so that [Compile] returns no error. *)
Definition regLastUnderScores : Regexp := ClassPlusEnd isUnderscore.
Definition regNotAllowed : Regexp := ClassPlus (fun r => negb (isAllowed r)).

(** ** Messages and dynamically typed values *)

Definition UUID_t := list Byte.byte.
Definition Time_t := Z.

(** [goengine.Message]: the four getters of the interface, as
    [mocks.DummyMessage] implements them.  The payload type [P] and the
    metadata type [M] are left open. *)
Record Message (P M : Type) : Type := NewDummyMessage {
  UUID : UUID_t;
  Payload : P;
  Metadata : M;
  CreatedAt : Time_t
}.
Arguments NewDummyMessage {P M}.
Arguments UUID {P M}.
Arguments Payload {P M}.
Arguments Metadata {P M}.
Arguments CreatedAt {P M}.

(** The values that travel as [interface{}] in a parameter vector. *)
Inductive any : Type :=
| anyUUID (u : UUID_t)
| anyString (s : gostring)
| anyBytes (b : list Byte.byte)
| anyTime (t : Time_t)
| anyInt64 (i : Z).

(** ** The interfaces of package [eventstore] *)

Module eventstore.

(** [eventstore.PayloadConverter]. *)
Record PayloadConverter (P W : Type) : Type := {
  ConvertPayload : P -> W -> W * (gostring * list Byte.byte * option error)
}.
Arguments ConvertPayload {P W}.

(** [eventstore.PersistenceStrategy]: the four methods the store calls. *)
Record PersistenceStrategy (P M W : Type) : Type := {
  CreateSchema : gostring -> list gostring;
  ColumnNames : list gostring;
  PrepareData : list (Message P M) -> W -> W * (list any * option error);
  GenerateTableName : gostring -> gostring * option error
}.
Arguments CreateSchema {P M W}.
Arguments ColumnNames {P M W}.
Arguments PrepareData {P M W}.
Arguments GenerateTableName {P M W}.

End eventstore.

(** ** [SingleStreamStrategy] (aggregate_stream_strategy.go) *)

Module SingleStreamStrategy.
Section Strategy.
Variables P M W : Type.

(** [json.Marshal] on metadata. *)
Variable json_Marshal : M -> list Byte.byte * option error.
(** [quoteIdentifier], a helper of the package declared in another
    file. *)
Variable quoteIdentifier : gostring -> gostring.
(** [unicode.ToLower] on the runes beyond ASCII (the case tables of the
    Go library). *)
Variable unicode_ToLower : rune -> rune.

Record t : Type := { converter : eventstore.PayloadConverter P W }.

Definition CreateSchema (tableName : gostring) : list gostring :=
  let uniqueIndexName := quoteIdentifier
    (tableName ++ lit "_unique_index___aggregate_type__aggregate_id__aggregate_version") in
  let indexName := quoteIdentifier
    (tableName ++ lit "_index__aggregate_type__aggregate_id") in
  let tableName := quoteIdentifier tableName in
  [ lit "CREATE TABLE " ++ tableName ++ lit " (
    no BIGSERIAL,
    event_id UUID NOT NULL,
    event_name VARCHAR(100) NOT NULL,
    payload JSON NOT NULL,
    metadata JSONB NOT NULL,
    created_at TIMESTAMP(6) NOT NULL,
    PRIMARY KEY (no),
    CONSTRAINT aggregate_version_not_null CHECK ((metadata->>'_aggregate_version') IS NOT NULL),
    CONSTRAINT aggregate_type_not_null CHECK ((metadata->>'_aggregate_type') IS NOT NULL),
    CONSTRAINT aggregate_id_not_null CHECK ((metadata->>'_aggregate_id') IS NOT NULL),
    UNIQUE (event_id)
);";
    lit "CREATE UNIQUE INDEX " ++ uniqueIndexName ++ lit " ON " ++ tableName ++ lit "
((metadata->>'_aggregate_type'), (metadata->>'_aggregate_id'), (metadata->>'_aggregate_version'));";
    lit "CREATE INDEX " ++ indexName ++ lit " ON " ++ tableName ++ lit "
((metadata->>'_aggregate_type'), (metadata->>'_aggregate_id'), no);" ].

Definition ColumnNames : list gostring :=
  [ lit "event_id"; lit "event_name"; lit "payload"; lit "metadata";
    lit "created_at" ].

(** The loop of [PrepareData]; [out] is the slice built so far.  An
    error leaves the loop with a nil slice. *)
Fixpoint PrepareData_loop (s : t) (messages : list (Message P M))
    (out : list any) (w : W) : W * (list any * option error) :=
  match messages with
  | [] => (w, (out, None))
  | msg :: rest =>
      let '(w, (payloadType, payloadData, err)) :=
        eventstore.ConvertPayload (converter s) (Payload msg) w in
      match err with
      | Some err => (w, ([], Some err))
      | None =>
          let '(meta, err) := json_Marshal (Metadata msg) in
          match err with
          | Some err => (w, ([], Some err))
          | None =>
              PrepareData_loop s rest
                (out ++ [ anyUUID (UUID msg);
                          anyString payloadType;
                          anyBytes payloadData;
                          anyBytes meta;
                          anyTime (CreatedAt msg) ]) w
          end
      end
  end.

Definition PrepareData (s : t) (messages : list (Message P M)) (w : W)
    : W * (list any * option error) :=
  PrepareData_loop s messages [] w.

(** [unicode.ToLower]: ASCII is handled in place, the rest by the
    tables. *)
Definition ToLowerRune (r : rune) : rune :=
  if r <=? 127
  then (if inRange 65 90 r then r + 32 else r)
  else unicode_ToLower r.

(** [strings.ToLower]. *)
Definition ToLower (s : gostring) : gostring := map ToLowerRune s.

Definition GenerateTableName (streamName : gostring)
    : gostring * option error :=
  if Nat.eqb (length streamName) 0 then ([], Some ErrEmptyStreamName)
  else
    let name := ToLower streamName in
    let name := ReplaceAllString regNotAllowed name [] in
    let name := ReplaceAllString regLastUnderScores name [] in
    (lit "events_" ++ name, None).

(** The strategy seen through the interface. *)
Definition asPersistenceStrategy (s : t)
    : eventstore.PersistenceStrategy P M W :=
  {| eventstore.CreateSchema := CreateSchema;
     eventstore.ColumnNames := ColumnNames;
     eventstore.PrepareData := PrepareData s;
     eventstore.GenerateTableName := GenerateTableName |}.

Definition NewPostgresStrategy
    (converter : option (eventstore.PayloadConverter P W))
    : option (eventstore.PersistenceStrategy P M W) * option error :=
  match converter with
  | None => (None, Some ErrNoPayloadConverter)
  | Some c => (Some (asPersistenceStrategy {| converter := c |}), None)
  end.
End Strategy.

Arguments converter {P W}.
Arguments PrepareData_loop {P M W}.
Arguments PrepareData {P M W}.
Arguments asPersistenceStrategy {P M W}.
Arguments NewPostgresStrategy {P M W}.

End SingleStreamStrategy.

(** ** Metadata matchers *)

Module metadata.

(** Modelled from the spec: [metadata.Constraint] is declared in other
    files.  A constraint has a field, an operator and a value. *)
Record Constraint : Type := {
  Field : gostring;
  Operator : gostring;
  Value : any
}.

(** Modelled from the spec: [metadata.Matcher] is declared in other files.
    A matcher is a finite sequence of constraints. *)
Definition Matcher := list Constraint.

(** Modelled from the spec: [Matcher.Iterate] is declared in other files.
    It visits each constraint in insertion order.  The callback updates
    the variables it captured, here the accumulator [A]. *)
Definition Iterate {A : Type} (m : Matcher)
    (callback : Constraint -> A -> A) (captured : A) : A :=
  fold_left (fun acc c => callback c acc) m captured.

End metadata.

(** ** [EventStore] (eventstore.go of package postgres) *)

Module EventStore.
Section Store.
(** Payloads, metadata, the world, and the handles of [database/sql]:
    transactions, results of [Exec], rows of [Query]; [ES] is
    [eventstore.EventStream]. *)
Variables P M W Tx Result Rows ES : Type.

(** [quoteString], a helper of the package declared in another file. *)
Variable quoteString : gostring -> gostring.

(** The methods of [*sql.DB] and [*sql.Tx] that the store calls.
    [QueryRowScan] is [QueryRowContext(...).Scan(&exists)]. *)
Record DB : Type := {
  BeginTx : W -> W * (Tx * option error);
  ExecContext : gostring -> list any -> W -> W * (Result * option error);
  QueryContext : gostring -> list any -> W -> W * (Rows * option error);
  QueryRowScan : gostring -> list any -> W -> W * (bool * option error);
  Rollback : Tx -> W -> W * option error;
  Commit : Tx -> W -> W * option error
}.

(** [eventstoreSQL.MessageFactory]. *)
Record MessageFactory : Type := {
  CreateEventStream : Rows -> W -> W * (option ES * option error)
}.

Record t : Type := {
  persistenceStrategy : eventstore.PersistenceStrategy P M W;
  db : DB;
  messageFactory : MessageFactory;
  preparedInsertPlaceholder : gmap Z gostring;
  columns : gostring
}.

Definition NewEventStore
    (persistenceStrategy : option (eventstore.PersistenceStrategy P M W))
    (db : option DB) (messageFactory : option MessageFactory)
    : option t * option error :=
  match persistenceStrategy, db, messageFactory with
  | None, _, _ => (None, Some ErrNoAggregateStreamStrategy)
  | Some _, None, _ => (None, Some ErrNoDBConnect)
  | Some _, Some _, None => (None, Some ErrNoMessageFactory)
  | Some ps, Some d, Some mf =>
      let columns := Join (eventstore.ColumnNames ps) (lit ", ") in
      (Some {| persistenceStrategy := ps;
               db := d;
               messageFactory := mf;
               preparedInsertPlaceholder := ∅;
               columns := columns |}, None)
  end.

Definition tableName (e : t) (s : gostring) : gostring * option error :=
  let '(tableName, err) :=
    eventstore.GenerateTableName (persistenceStrategy e) s in
  match err with
  | Some err => ([], Some err)
  | None =>
      if Nat.eqb (length tableName) 0 then ([], Some ErrTableNameEmpty)
      else (tableName, None)
  end.

Definition tableExists (e : t) (tableName : gostring) (w : W) : W * bool :=
  let '(w, (exists_, err)) :=
    QueryRowScan (db e)
      (lit "SELECT EXISTS(SELECT 1 FROM information_schema.tables WHERE table_schema = 'public' AND table_name = $1)")
      [anyString tableName] w in
  match err with
  | Some _ => (w, false)
  | None => (w, exists_)
  end.

(** The loop of [Create] over the DDL statements.  Each statement is
    executed on [e.db]; on the first failure the transaction [tx] is
    rolled back. *)
Fixpoint Create_loop (e : t) (tx : Tx) (queries : list gostring) (w : W)
    : W * option error :=
  match queries with
  | [] =>
      let '(w, err) := Commit (db e) tx w in
      match err with
      | Some err => (w, Some err)
      | None => (w, None)
      end
  | q :: rest =>
      let '(w, (_, err)) := ExecContext (db e) q [] w in
      match err with
      | None => Create_loop e tx rest w
      | Some err =>
          let '(w, errRollback) := Rollback (db e) tx w in
          match errRollback with
          | Some errRollback =>
              (w, Some (Errorf (lit "error one: " ++ Error errRollback
                                ++ [10] ++ lit "error two: " ++ Error err)))
          | None => (w, Some err)
          end
      end
  end.

Definition Create (e : t) (streamName : gostring) (w : W)
    : W * option error :=
  let '(tableName, err) := tableName e streamName in
  match err with
  | Some err => (w, Some err)
  | None =>
      let '(w, found) := tableExists e tableName w in
      if found then (w, Some ErrTableAlreadyExists)
      else
        let queries :=
          eventstore.CreateSchema (persistenceStrategy e) tableName in
        if Nat.eqb (length queries) 0 then (w, Some ErrNoCreateTableQueries)
        else
          let '(w, (tx, err)) := BeginTx (db e) w in
          match err with
          | Some err => (w, Some err)
          | None => Create_loop e tx queries w
          end
  end.

Definition HasStream (e : t) (streamName : gostring) (w : W) : W * bool :=
  let '(tableName, err) := tableName e streamName in
  match err with
  | Some _ => (w, false)
  | None => tableExists e tableName w
  end.

(** A nil matcher is [None]. *)
Definition matchConditions (matcher : option metadata.Matcher)
    : list gostring * list any :=
  match matcher with
  | None => ([], [])
  | Some matcher =>
      let '(_, conditions, params) :=
        metadata.Iterate matcher
          (fun c '(i, conditions, params) =>
             let i := i + 1 in
             let condition :=
               lit "metadata ->> " ++ quoteString (metadata.Field c)
               ++ lit " " ++ metadata.Operator c ++ lit " $" ++ Itoa i in
             (i, conditions ++ [condition], params ++ [metadata.Value c]))
          (0, [], []) in
      (conditions, params)
  end.

(** The statement and the parameters that [Load] hands to
    [QueryContext]. *)
Definition loadQuery (tableName : gostring) (fromNumber : Z)
    (count : option Z) (matcher : option metadata.Matcher)
    : gostring * list any :=
  let '(conditions, params) := matchConditions matcher in
  let params := params ++ [anyInt64 fromNumber] in
  let conditions :=
    conditions ++ [lit "no >= $" ++ Itoa (Z.of_nat (length params))] in
  let limit :=
    match count with
    | Some count => lit "LIMIT " ++ Itoa count
    | None => []
    end in
  (lit "SELECT * FROM " ++ tableName ++ lit " WHERE "
     ++ Join conditions (lit " AND ") ++ lit " ORDER BY no " ++ limit,
   params).

Definition Load (e : t) (streamName : gostring) (fromNumber : Z)
    (count : option Z) (matcher : option metadata.Matcher) (w : W)
    : W * (option ES * option error) :=
  let '(tableName, err) := tableName e streamName in
  match err with
  | Some err => (w, (None, Some err))
  | None =>
      let '(query, params) := loadQuery tableName fromNumber count matcher in
      let '(w, (rows, err)) := QueryContext (db e) query params w in
      match err with
      | Some err => (w, (None, Some err))
      | None => CreateEventStream (messageFactory e) rows w
      end
  end.

(** The loop of [prepareInsertValues] writing the placeholders
    [$1 .. $placeholderCount]; [todo] iterations remain and [i] is the
    loop counter. *)
Fixpoint placeholders_loop (lenCols : Z) (todo : nat) (i : Z)
    (placeholders : gostring) : gostring :=
  match todo with
  | O => placeholders
  | S todo =>
      let placeholders :=
        if Z.rem i lenCols =? 0
        then (if negb (i =? 0) then placeholders ++ lit ")," else placeholders)
             ++ lit "("
        else placeholders ++ lit "," in
      placeholders_loop lenCols todo (i + 1)
        (placeholders ++ lit "$" ++ Itoa (i + 1))
  end.

(** [prepareInsertValues] fills the cache of the store, which it
    returns next to the placeholder text. *)
Definition prepareInsertValues (e : t) (streamEvents : list (Message P M))
    (lenCols : Z) : t * gostring :=
  let messageCount := Z.of_nat (length streamEvents) in
  if messageCount =? 0 then (e, [])
  else
    match preparedInsertPlaceholder e !! messageCount with
    | Some values => (e, values)
    | None =>
        let placeholderCount := messageCount * lenCols in
        let placeholders :=
          placeholders_loop lenCols (Z.to_nat placeholderCount) 0 [] in
        let placeholders := placeholders ++ lit ")" in
        ({| persistenceStrategy := persistenceStrategy e;
            db := db e;
            messageFactory := messageFactory e;
            preparedInsertPlaceholder :=
              <[messageCount := placeholders]> (preparedInsertPlaceholder e);
            columns := columns e |},
         placeholders)
    end.

Definition AppendTo (e : t) (streamName : gostring)
    (streamEvents : list (Message P M)) (w : W) : (t * W) * option error :=
  let '(tableName, err) := tableName e streamName in
  match err with
  | Some err => ((e, w), Some err)
  | None =>
      let '(w, (data, err)) :=
        eventstore.PrepareData (persistenceStrategy e) streamEvents w in
      match err with
      | Some err => ((e, w), Some err)
      | None =>
          let columns_ := eventstore.ColumnNames (persistenceStrategy e) in
          let '(e, values) :=
            prepareInsertValues e streamEvents
              (Z.of_nat (length columns_)) in
          let '(w, (_, err)) :=
            ExecContext (db e)
              (lit "INSERT INTO " ++ tableName ++ lit " (" ++ columns e
               ++ lit ") VALUES " ++ values ++ lit ";")
              data w in
          match err with
          | Some err => ((e, w), Some err)
          | None => ((e, w), None)
          end
      end
  end.
End Store.

Arguments BeginTx {W Tx Result Rows}.
Arguments ExecContext {W Tx Result Rows}.
Arguments QueryContext {W Tx Result Rows}.
Arguments QueryRowScan {W Tx Result Rows}.
Arguments Rollback {W Tx Result Rows}.
Arguments Commit {W Tx Result Rows}.
Arguments CreateEventStream {W Rows ES}.
Arguments persistenceStrategy {P M W Tx Result Rows ES}.
Arguments db {P M W Tx Result Rows ES}.
Arguments messageFactory {P M W Tx Result Rows ES}.
Arguments preparedInsertPlaceholder {P M W Tx Result Rows ES}.
Arguments columns {P M W Tx Result Rows ES}.
Arguments NewEventStore {P M W Tx Result Rows ES}.
Arguments tableName {P M W Tx Result Rows ES}.
Arguments tableExists {P M W Tx Result Rows ES}.
Arguments Create_loop {P M W Tx Result Rows ES}.
Arguments Create {P M W Tx Result Rows ES}.
Arguments HasStream {P M W Tx Result Rows ES}.
Arguments Load {P M W Tx Result Rows ES}.
Arguments prepareInsertValues {P M W Tx Result Rows ES}.
Arguments AppendTo {P M W Tx Result Rows ES}.

End EventStore.

(** ** Event streams and [ReadEventStream] (eventstore.go of package goengine) *)

Module EventStream.

(** [goengine.EventStream] over the state [S] of the cursor; [Msg] is what
    [Message()] hands out, a value of the interface [goengine.Message]. *)
Record t (Msg S : Type) : Type := {
  Next : S -> S * bool;
  Err : S -> S * option error;
  Close : S -> S * option error;
  Message : S -> S * (Msg * Z * option error)
}.
Arguments Next {Msg S}.
Arguments Err {Msg S}.
Arguments Close {Msg S}.
Arguments Message {Msg S}.

End EventStream.

Module goengine.
Section Read.
Variables Msg St : Type.

(** The loop [for stream.Next() { ... }] and what follows it.  A stream
    need not end, so the loop runs on [fuel]: [None] means that the fuel
    ran out before [Next] returned false or [Message] failed. *)
Fixpoint ReadEventStream_loop (fuel : nat) (stream : EventStream.t Msg St)
    (messages : list Msg) (messageNumbers : list Z) (s : St)
    : option (St * (list Msg * list Z * option error)) :=
  match fuel with
  | O => None
  | S fuel =>
      let '(s, more) := EventStream.Next stream s in
      if more then
        let '(s, (msg, msgNumber, err)) := EventStream.Message stream s in
        match err with
        | Some err => Some (s, ([], [], Some err))
        | None =>
            ReadEventStream_loop fuel stream (messages ++ [msg])
              (messageNumbers ++ [msgNumber]) s
        end
      else
        let '(s, err) := EventStream.Err stream s in
        match err with
        | Some err => Some (s, ([], [], Some err))
        | None => Some (s, (messages, messageNumbers, None))
        end
  end.

Definition ReadEventStream (fuel : nat) (stream : EventStream.t Msg St)
    (s : St) : option (St * (list Msg * list Z * option error)) :=
  ReadEventStream_loop fuel stream [] [] s.
End Read.

Arguments ReadEventStream_loop {Msg St}.
Arguments ReadEventStream {Msg St}.
End goengine.

(** ** [StreamProjector.processNotification] (projector_stream.go) *)

Module StreamProjector.

Definition MaxInt16 : Z := 32767.

(** The type [errorAction] is declared in another file of the package; the
    code names four of its values.  [errorOther] stands for any other
    value of the type, for which the [switch] has no case. *)
Inductive errorAction : Type :=
| errorFail
| errorIgnore
| errorRetry
| errorFallthrough
| errorOther (code : Z).

(** Modelled from the spec: the actions of [driverSQL], declared in another
    file.  The callback answers Retry, Ignore, Fail or Fallthrough;
    [ProjectionOther] is an action that is none of them. *)
Inductive ProjectionErrorAction : Type :=
| ProjectionRetry
| ProjectionIgnoreError
| ProjectionFail
| ProjectionFallthrough
| ProjectionOther (code : Z).

Section Projector.
(** The world, and [driverSQL.ProjectionNotification]; a nil notification
    is [None]. *)
Variables W Notification : Type.

(** [internalSQL.NotificationProjector]: the fold. *)
Record NotificationProjector : Type := {
  Execute : option Notification -> W -> W * option error
}.

(** [driverSQL.ProjectionErrorCallback]. *)
Definition ProjectionErrorCallback : Type :=
  error -> option Notification -> W -> W * ProjectionErrorAction.

(** [resolveErrorAction], declared in another file of the package. *)
Variable resolveErrorAction :
  ProjectionErrorCallback -> option Notification -> error ->
  W -> W * errorAction.

Record t : Type := {
  executor : NotificationProjector;
  projectionErrorHandler : ProjectionErrorCallback
}.

Definition retriesExhausted : error :=
  Errorf (lit "seriously " ++ Itoa MaxInt16
          ++ lit " retries is enough! maybe it's time to fix your projection or error handling code?").

(** The loop [for i := 0; i < math.MaxInt16; i++]; [todo] is
    [MaxInt16 - i]. *)
Fixpoint processNotification_loop (s : t)
    (notification : option Notification) (todo : nat) (w : W)
    : W * option error :=
  match todo with
  | O => (w, Some retriesExhausted)
  | S todo =>
      let '(w, err) := Execute (executor s) notification w in
      match err with
      | None => (w, None)
      | Some err =>
          let '(w, action) :=
            resolveErrorAction (projectionErrorHandler s) notification
              err w in
          match action with
          | errorRetry => processNotification_loop s notification todo w
          | errorIgnore => (w, None)
          | errorFail | errorFallthrough => (w, Some err)
          | errorOther _ => processNotification_loop s notification todo w
          end
      end
  end.

Definition processNotification (s : t)
    (notification : option Notification) (w : W) : W * option error :=
  processNotification_loop s notification (Z.to_nat MaxInt16) w.
End Projector.

Arguments Execute {W Notification}.
Arguments executor {W Notification}.
Arguments projectionErrorHandler {W Notification}.
Arguments processNotification_loop {W Notification}.
Arguments processNotification {W Notification}.

(** Modelled from the spec: [resolveErrorAction] is declared in another
    file.  The callback is consulted on the error; its answer is followed,
    and an answer that is not recognised is treated as Fail. *)
Definition resolveErrorAction {W Notification : Type}
    (projectionErrorHandler : ProjectionErrorCallback W Notification)
    (notification : option Notification) (err : error) (w : W)
    : W * errorAction :=
  let '(w, action) := projectionErrorHandler err notification w in
  match action with
  | ProjectionRetry => (w, errorRetry)
  | ProjectionIgnoreError => (w, errorIgnore)
  | ProjectionFail => (w, errorFail)
  | ProjectionFallthrough => (w, errorFallthrough)
  | ProjectionOther _ => (w, errorFail)
  end.

End StreamProjector.

(** ** Aggregates *)

Module aggregate.

(** Modelled from the spec: [aggregate.ID], declared in other files, the
    identifier of an aggregate. *)
Definition ID := gostring.

(** Modelled from the spec: [aggregate.Changed], declared in other files,
    the envelope of a change: the payload with the identifier and the
    version of the aggregate. *)
Record Changed (Ev : Type) : Type := {
  aggregateID : ID;
  payload : Ev;
  version : Z
}.
Arguments aggregateID {Ev}.
Arguments payload {Ev}.
Arguments version {Ev}.

(** Modelled from the spec: [aggregate.BaseRoot], declared in other files.
    A root owns a current version and a buffer of recorded changes. *)
Record BaseRoot (Ev : Type) : Type := {
  currentVersion : Z;
  recordedEvents : list (Changed Ev)
}.
Arguments currentVersion {Ev}.
Arguments recordedEvents {Ev}.

(** Modelled from the spec: the interface [aggregate.Root], declared in
    other files: [AggregateID], [Apply], and the embedded [BaseRoot]. *)
Class Root (A Ev : Type) : Type := {
  AggregateID : A -> ID;
  Apply : A -> Changed Ev -> A;
  base : A -> BaseRoot Ev;
  withBase : A -> BaseRoot Ev -> A
}.

(** Modelled from the spec: [aggregate.RecordChange], declared in other
    files.  It builds the envelope with version [currentVersion + 1],
    appends it to the recorded changes and invokes [Apply]. *)
Definition RecordChange {A Ev : Type} `{Root A Ev} (root : A) (event : Ev)
    : A * option error :=
  let v := currentVersion (base root) + 1 in
  let change :=
    {| aggregateID := AggregateID root; payload := event; version := v |} in
  let root :=
    withBase root
      {| currentVersion := v;
         recordedEvents := recordedEvents (base root) ++ [change] |} in
  (Apply root change, None).

End aggregate.

(** ** [BankAccount] (example/aggregate/main.go) *)

Module BankAccount.

(** The payloads of the example; [otherPayload] is a payload of any other
    dynamic type, for which the type switch of [Apply] has no case. *)
Inductive event : Type :=
| AccountOpened (AccountID : aggregate.ID)
| AccountCredited (Amount : Z)
| AccountDebited (Amount : Z)
| otherPayload.

(** [uint] arithmetic wraps around (64-bit platform). *)
Definition uint (z : Z) : Z := z mod 2 ^ 64.

Record t : Type := {
  BaseRoot : aggregate.BaseRoot event;
  accountID : aggregate.ID;
  balance : Z
}.

Definition AggregateID (b : t) : aggregate.ID := accountID b.

Definition Apply (b : t) (change : aggregate.Changed event) : t :=
  match aggregate.payload change with
  | AccountOpened AccountID =>
      {| BaseRoot := BaseRoot b; accountID := AccountID;
         balance := balance b |}
  | AccountCredited Amount =>
      {| BaseRoot := BaseRoot b; accountID := accountID b;
         balance := uint (balance b + Amount) |}
  | AccountDebited Amount =>
      {| BaseRoot := BaseRoot b; accountID := accountID b;
         balance := uint (balance b - Amount) |}
  | otherPayload => b
  end.

#[export] Instance root : aggregate.Root t event := {|
  aggregate.AggregateID := AggregateID;
  aggregate.Apply := Apply;
  aggregate.base := BaseRoot;
  aggregate.withBase := fun b r =>
    {| BaseRoot := r; accountID := accountID b; balance := balance b |}
|}.

(** The zero value of the struct. *)
Definition zero : t :=
  {| BaseRoot := {| aggregate.currentVersion := 0;
                    aggregate.recordedEvents := [] |};
     accountID := [];
     balance := 0 |}.

(** [accountID] is what [aggregate.GenerateID()] returned. *)
Definition OpenBankAccount (accountID : aggregate.ID) : t * option error :=
  let account :=
    {| BaseRoot := BaseRoot zero; accountID := accountID;
       balance := balance zero |} in
  aggregate.RecordChange account (AccountOpened accountID).

Definition Deposit (b : t) (amount : Z) : t * option error :=
  if amount =? 0 then (b, None)
  else aggregate.RecordChange b (AccountCredited amount).

Definition Withdraw (b : t) (amount : Z) : t * option error :=
  if amount >? balance b then (b, Some ErrInsufficientMoney)
  else aggregate.RecordChange b (AccountDebited amount).

Definition Balance (b : t) : Z := balance b.

End BankAccount.

(** ** The life cycle of the stream projector (projector_stream.go)

    [Run], [RunAndListen] and the set-up of the projection row.  The mutex
    of the projector is not modelled: the calls are taken one at a time. *)

Module StreamProjectorRun.
Section Run.
(** The world, the notifications, and the handles of [database/sql]. *)
Variables W Notification Conn Rows Result : Type.

(** [QuoteIdentifier], declared in another file of the package. *)
Variable QuoteIdentifier : gostring -> gostring.

(** [resolveErrorAction], declared in another file of the package. *)
Variable resolveErrorAction :
  StreamProjector.ProjectionErrorCallback W Notification ->
  option Notification -> error -> W -> W * StreamProjector.errorAction.

(** What the projector asks of the database: [internalSQL.AcquireConn] on
    its [*sql.DB], the methods of the [*sql.Conn] it gets, and those of
    the [*sql.Rows] of a query. *)
Record DB : Type := {
  AcquireConn : W -> W * (Conn * option error);
  ConnClose : Conn -> W -> W * option error;
  ConnQueryContext :
    Conn -> gostring -> list any -> W -> W * (Rows * option error);
  ConnExecContext :
    Conn -> gostring -> list any -> W -> W * (Result * option error);
  RowsNext : Rows -> W -> W * bool;
  RowsScan : Rows -> W -> W * (bool * option error);
  RowsClose : Rows -> W -> W * option error
}.

(** [driverSQL.Listener]: [Listen] drives the trigger it is given. *)
Record Listener : Type := {
  Listen :
    (option Notification -> W -> W * option error) -> W -> W * option error
}.

(** The fields of [StreamProjector] next to the executor and the error
    handler, which [projector] holds. *)
Record t : Type := {
  projector : StreamProjector.t W Notification;
  db : DB;
  projectionName : gostring;
  projectionTable : gostring
}.

(** The deferred [rows.Close()] runs once the result is known; its error
    is only logged. *)
Definition projectionExists (s : t) (conn : Conn) (w : W) : W * bool :=
  let '(w, (rows, err)) :=
    ConnQueryContext (db s) conn
      (lit "SELECT 1 FROM " ++ QuoteIdentifier (projectionTable s)
       ++ lit " WHERE name = $1 LIMIT 1")
      [anyString (projectionName s)] w in
  match err with
  | Some _ => (w, false)
  | None =>
      let '(w, result) :=
        let '(w, more) := RowsNext (db s) rows w in
        if negb more then (w, false)
        else
          let '(w, (found, err)) := RowsScan (db s) rows w in
          match err with
          | Some _ => (w, false)
          | None => (w, found)
          end in
      let '(w, _) := RowsClose (db s) rows w in
      (w, result)
  end.

Definition createProjection (s : t) (conn : Conn) (w : W)
    : W * option error :=
  let '(w, (_, err)) :=
    ConnExecContext (db s) conn
      (lit "INSERT INTO " ++ QuoteIdentifier (projectionTable s)
       ++ lit " (name) VALUES ($1) ON CONFLICT DO NOTHING")
      [anyString (projectionName s)] w in
  match err with
  | Some err => (w, Some err)
  | None => (w, None)
  end.

(** The deferred [conn.Close()] runs once the result is known; its error
    is only logged. *)
Definition setupProjection (s : t) (w : W) : W * option error :=
  let '(w, (conn, err)) := AcquireConn (db s) w in
  match err with
  | Some err => (w, Some err)
  | None =>
      let '(w, result) :=
        let '(w, found) := projectionExists s conn w in
        if found then (w, None)
        else
          let '(w, err) := createProjection s conn w in
          match err with
          | Some err => (w, Some err)
          | None => (w, None)
          end in
      let '(w, _) := ConnClose (db s) conn w in
      (w, result)
  end.

(** [expired] tells whether [ctx.Done()] is closed when [Run] looks. *)
Definition Run (s : t) (expired : bool) (w : W) : W * option error :=
  if expired then (w, None)
  else
    let '(w, err) := setupProjection s w in
    match err with
    | Some err => (w, Some err)
    | None =>
        StreamProjector.processNotification resolveErrorAction (projector s)
          None w
    end.

Definition RunAndListen (s : t) (expired : bool) (listener : Listener)
    (w : W) : W * option error :=
  if expired then (w, None)
  else
    let '(w, err) := setupProjection s w in
    match err with
    | Some err => (w, Some err)
    | None =>
        Listen listener
          (StreamProjector.processNotification resolveErrorAction
             (projector s)) w
    end.
End Run.

Arguments AcquireConn {W Conn Rows Result}.
Arguments ConnClose {W Conn Rows Result}.
Arguments ConnQueryContext {W Conn Rows Result}.
Arguments ConnExecContext {W Conn Rows Result}.
Arguments RowsNext {W Conn Rows Result}.
Arguments RowsScan {W Conn Rows Result}.
Arguments RowsClose {W Conn Rows Result}.
Arguments Listen {W Notification}.
Arguments projector {W Notification Conn Rows Result}.
Arguments db {W Notification Conn Rows Result}.
Arguments projectionName {W Notification Conn Rows Result}.
Arguments projectionTable {W Notification Conn Rows Result}.
Arguments projectionExists {W Notification Conn Rows Result}.
Arguments createProjection {W Notification Conn Rows Result}.
Arguments setupProjection {W Notification Conn Rows Result}.
Arguments Run {W Notification Conn Rows Result}.
Arguments RunAndListen {W Notification Conn Rows Result}.

End StreamProjectorRun.

(** ** Notions used to state the properties *)

Fixpoint gostring_eqb (a b : gostring) : bool :=
  match a, b with
  | [], [] => true
  | x :: a, y :: b => (x =? y) && gostring_eqb a b
  | _, _ => false
  end.

(** [strings.HasPrefix] and [strings.HasSuffix]. *)
Fixpoint HasPrefix (s prefix : gostring) : bool :=
  match prefix, s with
  | [], _ => true
  | p :: prefix, x :: s => (x =? p) && HasPrefix s prefix
  | _ :: _, [] => false
  end.

Definition HasSuffix (s suffix : gostring) : bool :=
  HasPrefix (rev s) (rev suffix).

Section PrepareDataSpec.
Context {P M W : Type}.
Variable json_Marshal : M -> list Byte.byte * option error.
Variable s : SingleStreamStrategy.t P W.

Definition convert (msg : Message P M) (w : W) :=
  eventstore.ConvertPayload (SingleStreamStrategy.converter s)
    (Payload msg) w.

(** The world after the converter has been called once for each of
    [messages], in their order. *)
Definition converted (messages : list (Message P M)) (w : W) : W :=
  fold_left (fun w msg => fst (convert msg w)) messages w.

(** The converter and the JSON encoding of the metadata succeed on each
    of [messages], converted in their order from the world [w]. *)
Fixpoint allSucceed (messages : list (Message P M)) (w : W) : Prop :=
  match messages with
  | [] => True
  | msg :: rest =>
      snd (snd (convert msg w)) = None
      /\ snd (json_Marshal (Metadata msg)) = None
      /\ allSucceed rest (fst (convert msg w))
  end.

(** The converter, or else the JSON encoding, fails on [msg] with [e]. *)
Definition failsWith (msg : Message P M) (w : W) (e : error) : Prop :=
  snd (snd (convert msg w)) = Some e
  \/ (snd (snd (convert msg w)) = None
      /\ snd (json_Marshal (Metadata msg)) = Some e).

(** The value stored in [column] for [msg]. *)
Definition cell (msg : Message P M) (w : W) (column : gostring) : any :=
  let '(payloadType, payloadData, _) := snd (convert msg w) in
  if gostring_eqb column (lit "event_id") then anyUUID (UUID msg)
  else if gostring_eqb column (lit "event_name") then anyString payloadType
  else if gostring_eqb column (lit "payload") then anyBytes payloadData
  else if gostring_eqb column (lit "metadata")
       then anyBytes (fst (json_Marshal (Metadata msg)))
  else anyTime (CreatedAt msg).

(** The parameter vector the spec asks for: one row per message, each
    row holding the cells of the declared columns in their order. *)
Fixpoint rows (messages : list (Message P M)) (w : W) : list any :=
  match messages with
  | [] => []
  | msg :: rest =>
      map (cell msg w) SingleStreamStrategy.ColumnNames
      ++ rows rest (fst (convert msg w))
  end.
End PrepareDataSpec.

(** What draining a stream yields: [ended err] when [Next] returned false
    and [Err] then returned [err], [failed e] when a call of [Message]
    failed with [e]. *)
Inductive ending : Type :=
| ended (err : option error)
| failed (e : error).

(** [drained stream s yielded s' o]: from the state [s], successive calls
    of [Next] and [Message] yield the messages and numbers [yielded], in
    this order, and then end as [o] says, in the state [s']. *)
Inductive drained {Msg St : Type} (stream : EventStream.t Msg St)
    : St -> list (Msg * Z) -> St -> ending -> Prop :=
| drained_end s s1 s2 err :
    EventStream.Next stream s = (s1, false) ->
    EventStream.Err stream s1 = (s2, err) ->
    drained stream s [] s2 (ended err)
| drained_fail s s1 s2 msg number e :
    EventStream.Next stream s = (s1, true) ->
    EventStream.Message stream s1 = (s2, (msg, number, Some e)) ->
    drained stream s [] s2 (failed e)
| drained_row s s1 s2 msg number yielded s3 o :
    EventStream.Next stream s = (s1, true) ->
    EventStream.Message stream s1 = (s2, (msg, number, None)) ->
    drained stream s2 yielded s3 o ->
    drained stream s ((msg, number) :: yielded) s3 o.


(** [retried resolve s n k w w']: from the world [w], [k] attempts of the
    fold on the notification [n] failed in a row, each followed by the
    action [errorRetry], and left the world [w']. *)
Inductive retried {W Notification : Type}
    (resolve : StreamProjector.ProjectionErrorCallback W Notification ->
               option Notification -> error ->
               W -> W * StreamProjector.errorAction)
    (s : StreamProjector.t W Notification) (n : option Notification)
    : nat -> W -> W -> Prop :=
| retried_O w : retried resolve s n O w w
| retried_S k w w1 w2 w3 err :
    retried resolve s n k w w1 ->
    StreamProjector.Execute (StreamProjector.executor s) n w1
    = (w2, Some err) ->
    resolve (StreamProjector.projectionErrorHandler s) n err w2
    = (w3, StreamProjector.errorRetry) ->
    retried resolve s n (S k) w w3.

(** The fragment [metadata ->> '<field>' <op> $n] of a constraint, the
    field quoted by [quoteString], and the [LIMIT] clause of a count. *)
Definition conditionOf (quoteString : gostring -> gostring) (n : Z)
    (c : metadata.Constraint) : gostring :=
  lit "metadata ->> " ++ quoteString (metadata.Field c) ++ lit " "
  ++ metadata.Operator c ++ lit " $" ++ Itoa n.

Definition limitClause (count : option Z) : gostring :=
  match count with
  | Some count => lit "LIMIT " ++ Itoa count
  | None => []
  end.

(** The constraints a matcher iterates over; a nil matcher has none. *)
Definition constraintsOf (matcher : option metadata.Matcher)
    : list metadata.Constraint :=
  match matcher with
  | Some constraints => constraints
  | None => []
  end.

(** The placeholders of the row number [row] (from 0) of an insert with
    [lenCols] columns, [($a,...,$b)], and of a whole insert of
    [messageCount] rows. *)
Definition placeholderGroup (lenCols row : nat) : gostring :=
  lit "("
  ++ Join (map (fun j => lit "$" ++ Itoa (Z.of_nat (row * lenCols + j) + 1))
             (seq 0 lenCols)) (lit ",")
  ++ lit ")".

Definition placeholderTemplate (messageCount lenCols : nat) : gostring :=
  Join (map (placeholderGroup lenCols) (seq 0 messageCount)) (lit ",").

(** Every entry of the cache of placeholders is the template of its
    message count. *)
Definition cacheCoherent (lenCols : nat) (cache : gmap Z gostring) : Prop :=
  forall (k : Z) (v : gostring),
    cache !! k = Some v ->
    0 < k /\ v = placeholderTemplate (Z.to_nat k) lenCols.

Section CreateSpec.
Context {P M W Tx Result Rows ES : Type}.
Variable e : EventStore.t P M W Tx Result Rows ES.

(** The world after [queries] were executed in order on the database of
    the store, and the fact that each of them succeeded. *)
Definition executed (queries : list gostring) (w : W) : W :=
  fold_left
    (fun w q => fst (EventStore.ExecContext (EventStore.db e) q [] w))
    queries w.

Fixpoint allExecute (queries : list gostring) (w : W) : Prop :=
  match queries with
  | [] => True
  | q :: rest =>
      snd (snd (EventStore.ExecContext (EventStore.db e) q [] w)) = None
      /\ allExecute rest
           (fst (EventStore.ExecContext (EventStore.db e) q [] w))
  end.
End CreateSpec.

(** What a list of changes adds to the balance: the credits minus the
    debits. *)
Fixpoint netAmount (changes : list (aggregate.Changed BankAccount.event))
    : Z :=
  match changes with
  | [] => 0
  | change :: rest =>
      match aggregate.payload change with
      | BankAccount.AccountCredited Amount => Amount + netAmount rest
      | BankAccount.AccountDebited Amount => netAmount rest - Amount
      | _ => netAmount rest
      end
  end.

(** ** Stand-ins for the collaborators

    Small implementations of the interfaces, on which the code can be run. *)

Module fake.

(** The database keeps the statements whose effects it holds ([schema]),
    the statements of the open transaction, if any, and every statement it
    was sent ([received]); [conversions] counts the calls of the payload
    converter. *)
Record world : Type := {
  schema : list gostring;
  openTx : option (list gostring);
  received : list gostring;
  conversions : nat
}.

Definition empty : world :=
  {| schema := []; openTx := None; received := []; conversions := O |}.

(** A database that refuses the statements for which [rejects] has an
    error, and whose [Rollback] returns [rollbackErr].  A statement sent
    through the handle of the database itself takes effect at once;
    [Commit] adds the statements of the transaction and [Rollback] drops
    them. *)
Definition db (rejects : gostring -> option error)
    (rollbackErr : option error) : EventStore.DB world unit unit unit :=
  {| EventStore.BeginTx := fun w =>
       ({| schema := schema w; openTx := Some []; received := received w;
           conversions := conversions w |}, (tt, None));
     EventStore.ExecContext := fun query _ w =>
       match rejects query with
       | Some err =>
           ({| schema := schema w; openTx := openTx w;
               received := received w ++ [query];
               conversions := conversions w |}, (tt, Some err))
       | None =>
           ({| schema := schema w ++ [query]; openTx := openTx w;
               received := received w ++ [query];
               conversions := conversions w |}, (tt, None))
       end;
     EventStore.QueryContext := fun query _ w =>
       ({| schema := schema w; openTx := openTx w;
           received := received w ++ [query];
           conversions := conversions w |}, (tt, None));
     EventStore.QueryRowScan := fun _ _ w => (w, (false, None));
     EventStore.Rollback := fun _ w =>
       ({| schema := schema w; openTx := None; received := received w;
           conversions := conversions w |}, rollbackErr);
     EventStore.Commit := fun _ w =>
       ({| schema := schema w ++ default [] (openTx w); openTx := None;
           received := received w; conversions := conversions w |}, None)
  |}.

Definition messageFactory : EventStore.MessageFactory world unit unit :=
  {| EventStore.CreateEventStream := fun _ w => (w, (Some tt, None)) |}.

(** Payloads are numbers; the converter refuses the negative ones.
    Metadata is a flag telling whether it can be encoded. *)
Definition converter : eventstore.PayloadConverter Z world :=
  {| eventstore.ConvertPayload := fun p w =>
       ({| schema := schema w; openTx := openTx w; received := received w;
           conversions := S (conversions w) |},
        if p <? 0
        then ([], [], Some (Errorf (lit "payload cannot be converted")))
        else (lit "n" ++ Itoa p, [], None)) |}.

Definition json_Marshal (encodable : bool) : list Byte.byte * option error :=
  if encodable then ([Byte.x7b; Byte.x7d], None)
  else ([], Some (Errorf (lit "json: unsupported value"))).

Definition quoteIdentifier (name : gostring) : gostring :=
  [34] ++ name ++ [34].

Definition quoteString (str : gostring) : gostring :=
  lit "'" ++ str ++ lit "'".

Definition strategy : eventstore.PersistenceStrategy Z bool world :=
  SingleStreamStrategy.asPersistenceStrategy json_Marshal quoteIdentifier
    (fun r => r) {| SingleStreamStrategy.converter := converter |}.

Definition store (rejects : gostring -> option error)
    (rollbackErr : option error) : EventStore.t Z bool world unit unit unit unit :=
  {| EventStore.persistenceStrategy := strategy;
     EventStore.db := db rejects rollbackErr;
     EventStore.messageFactory := messageFactory;
     EventStore.preparedInsertPlaceholder := ∅;
     EventStore.columns := Join (eventstore.ColumnNames strategy) (lit ", ") |}.

(** The database refuses an [INSERT] without a row, as PostgreSQL does. *)
Definition rejectsNoRows (query : gostring) : option error :=
  if HasSuffix query (lit "VALUES ;")
  then Some (Errorf (lit "pq: syntax error at or near ;"))
  else None.

(** The database fails to build the unique index. *)
Definition rejectsUniqueIndex (query : gostring) : option error :=
  if HasPrefix query (lit "CREATE UNIQUE INDEX")
  then Some (Errorf (lit "pq: could not create unique index"))
  else None.

(** A cursor over rows held in memory: the rows still to come and the
    current one; [final] is what [Err] returns. *)
Definition cursor : Type :=
  list (gostring * Z * option error) * option (gostring * Z * option error).

Definition stream (final : option error) : EventStream.t gostring cursor :=
  {| EventStream.Next := fun '(todo, _) =>
       match todo with
       | [] => (([], None), false)
       | row :: todo => ((todo, Some row), true)
       end;
     EventStream.Err := fun c => (c, final);
     EventStream.Close := fun c => (c, None);
     EventStream.Message := fun '(todo, current) =>
       ((todo, current),
        default ([], 0, Some (Errorf (lit "no current row"))) current) |}.

(** A fold that counts its attempts in the world and fails until the
    attempt number [succeedsAt]. *)
Definition flaky (succeedsAt : Z)
    : StreamProjector.NotificationProjector Z unit :=
  {| StreamProjector.Execute := fun _ attempts =>
       (attempts + 1,
        if attempts + 1 <? succeedsAt
        then Some (Errorf (lit "projection failed"))
        else None) |}.

Definition answering (action : StreamProjector.ProjectionErrorAction)
    : StreamProjector.ProjectionErrorCallback Z unit :=
  fun _ _ w => (w, action).

Definition projector (succeedsAt : Z)
    (action : StreamProjector.ProjectionErrorAction)
    : StreamProjector.t Z unit :=
  {| StreamProjector.executor := flaky succeedsAt;
     StreamProjector.projectionErrorHandler := answering action |}.

(** The database [d] with every table reported as existing, and [d] with
    a [BeginTx] that fails. *)
Definition existing (d : EventStore.DB world unit unit unit)
    : EventStore.DB world unit unit unit :=
  {| EventStore.BeginTx := EventStore.BeginTx d;
     EventStore.ExecContext := EventStore.ExecContext d;
     EventStore.QueryContext := EventStore.QueryContext d;
     EventStore.QueryRowScan := fun query _ w =>
       ({| schema := schema w; openTx := openTx w;
           received := received w ++ [query];
           conversions := conversions w |}, (true, None));
     EventStore.Rollback := EventStore.Rollback d;
     EventStore.Commit := EventStore.Commit d |}.

Definition cannotBegin (err : error) (d : EventStore.DB world unit unit unit)
    : EventStore.DB world unit unit unit :=
  {| EventStore.BeginTx := fun w => (w, (tt, Some err));
     EventStore.ExecContext := EventStore.ExecContext d;
     EventStore.QueryContext := EventStore.QueryContext d;
     EventStore.QueryRowScan := EventStore.QueryRowScan d;
     EventStore.Rollback := EventStore.Rollback d;
     EventStore.Commit := EventStore.Commit d |}.

(** A database whose queries fail with [err]. *)
Definition cannotQuery (err : error) (d : EventStore.DB world unit unit unit)
    : EventStore.DB world unit unit unit :=
  {| EventStore.BeginTx := EventStore.BeginTx d;
     EventStore.ExecContext := EventStore.ExecContext d;
     EventStore.QueryContext := fun query _ w =>
       ({| schema := schema w; openTx := openTx w;
           received := received w ++ [query];
           conversions := conversions w |}, (tt, Some err));
     EventStore.QueryRowScan := fun query _ w =>
       ({| schema := schema w; openTx := openTx w;
           received := received w ++ [query];
           conversions := conversions w |}, (true, Some err));
     EventStore.Rollback := EventStore.Rollback d;
     EventStore.Commit := EventStore.Commit d |}.

(** A strategy like [strategy] but without any statement to create the
    schema. *)
Definition noSchema : eventstore.PersistenceStrategy Z bool world :=
  {| eventstore.CreateSchema := fun _ => [];
     eventstore.ColumnNames := eventstore.ColumnNames strategy;
     eventstore.PrepareData := eventstore.PrepareData strategy;
     eventstore.GenerateTableName := eventstore.GenerateTableName strategy |}.

Definition storeOf (ps : eventstore.PersistenceStrategy Z bool world)
    (d : EventStore.DB world unit unit unit)
    : EventStore.t Z bool world unit unit unit unit :=
  {| EventStore.persistenceStrategy := ps;
     EventStore.db := d;
     EventStore.messageFactory := messageFactory;
     EventStore.preparedInsertPlaceholder := ∅;
     EventStore.columns := Join (eventstore.ColumnNames ps) (lit ", ") |}.

(** The projection table in memory: the names of the projections, the
    connections and result sets that are open, and the runs of the fold. *)
Record projections : Type := {
  names : list gostring;
  openConns : Z;
  openRows : Z;
  folds : Z
}.

Definition hasName (name : gostring) (p : projections) : bool :=
  existsb (gostring_eqb name) (names p).

Definition nameOf (params : list any) : gostring :=
  match params with
  | [anyString name] => name
  | _ => []
  end.

(** A database for the projector.  A connection is its number; the rows
    of a query are the flag telling whether the name was found.  With
    [broken] every query and statement fails. *)
Definition projectionDB (broken : option error)
    : StreamProjectorRun.DB projections unit bool unit :=
  {| StreamProjectorRun.AcquireConn := fun p =>
       ({| names := names p; openConns := openConns p + 1;
           openRows := openRows p; folds := folds p |}, (tt, None));
     StreamProjectorRun.ConnClose := fun _ p =>
       ({| names := names p; openConns := openConns p - 1;
           openRows := openRows p; folds := folds p |}, None);
     StreamProjectorRun.ConnQueryContext := fun _ _ params p =>
       match broken with
       | Some err => (p, (false, Some err))
       | None =>
           ({| names := names p; openConns := openConns p;
               openRows := openRows p + 1; folds := folds p |},
            (hasName (nameOf params) p, None))
       end;
     StreamProjectorRun.ConnExecContext := fun _ _ params p =>
       match broken with
       | Some err => (p, (tt, Some err))
       | None =>
           ({| names := if hasName (nameOf params) p then names p
                        else names p ++ [nameOf params];
               openConns := openConns p; openRows := openRows p;
               folds := folds p |}, (tt, None))
       end;
     StreamProjectorRun.RowsNext := fun rows p => (p, rows);
     StreamProjectorRun.RowsScan := fun rows p => (p, (rows, None));
     StreamProjectorRun.RowsClose := fun _ p =>
       ({| names := names p; openConns := openConns p;
           openRows := openRows p - 1; folds := folds p |}, None) |}.

(** A fold that counts its runs and fails with [outcome], if any. *)
Definition counting (outcome : option error)
    : StreamProjector.NotificationProjector projections unit :=
  {| StreamProjector.Execute := fun _ p =>
       ({| names := names p; openConns := openConns p;
           openRows := openRows p; folds := folds p + 1 |}, outcome) |}.

Definition runner (broken outcome : option error)
    : StreamProjectorRun.t projections unit unit bool unit :=
  {| StreamProjectorRun.projector :=
       {| StreamProjector.executor := counting outcome;
          StreamProjector.projectionErrorHandler :=
            fun _ _ p => (p, StreamProjector.ProjectionFail) |};
     StreamProjectorRun.db := projectionDB broken;
     StreamProjectorRun.projectionName := lit "balances";
     StreamProjectorRun.projectionTable := lit "projections" |}.

(** A listener that announces the given notifications one after the
    other and stops at the first error of the trigger. *)
Fixpoint announce (notifications : list (option unit))
    (trigger : option unit -> projections -> projections * option error)
    (p : projections) : projections * option error :=
  match notifications with
  | [] => (p, None)
  | n :: rest =>
      let '(p, err) := trigger n p in
      match err with
      | Some err => (p, Some err)
      | None => announce rest trigger p
      end
  end.

Definition listener (notifications : list (option unit))
    : StreamProjectorRun.Listener projections unit :=
  {| StreamProjectorRun.Listen := announce notifications |}.

Definition noProjections : projections :=
  {| names := []; openConns := 0; openRows := 0; folds := 0 |}.

(** A database that hands out no connection. *)
Definition noConn (err : error)
    : StreamProjectorRun.DB projections unit bool unit :=
  {| StreamProjectorRun.AcquireConn := fun p => (p, (tt, Some err));
     StreamProjectorRun.ConnClose :=
       StreamProjectorRun.ConnClose (projectionDB None);
     StreamProjectorRun.ConnQueryContext :=
       StreamProjectorRun.ConnQueryContext (projectionDB None);
     StreamProjectorRun.ConnExecContext :=
       StreamProjectorRun.ConnExecContext (projectionDB None);
     StreamProjectorRun.RowsNext :=
       StreamProjectorRun.RowsNext (projectionDB None);
     StreamProjectorRun.RowsScan :=
       StreamProjectorRun.RowsScan (projectionDB None);
     StreamProjectorRun.RowsClose :=
       StreamProjectorRun.RowsClose (projectionDB None) |}.

Definition runnerOn (d : StreamProjectorRun.DB projections unit bool unit)
    : StreamProjectorRun.t projections unit unit bool unit :=
  {| StreamProjectorRun.projector :=
       StreamProjectorRun.projector (runner None None);
     StreamProjectorRun.db := d;
     StreamProjectorRun.projectionName := lit "balances";
     StreamProjectorRun.projectionTable := lit "projections" |}.

End fake.

(** * Properties *)

(** ** Table names *)

Section TableNames.
Variable class : rune -> bool.

Lemma replaceAll_ClassPlus (s : gostring) (k : nat) :
  (k <= classRun class s)%nat ->
  replaceAllFrom (ClassPlus class) [] k s
  = List.filter (fun r => negb (class r)) s.
Proof.
  revert k. induction s as [|r t IH]; intros k Hk; [reflexivity|].
  cbn [replaceAllFrom matchHere classRun List.filter] in *.
  destruct k as [|k].
  - destruct (class r); cbn [negb app].
    + apply IH. lia.
    + f_equal. apply IH. lia.
  - destruct (class r); cbn [negb]; [apply IH; lia | lia].
Qed.

Lemma classRun_full (s : gostring) :
  classRun class s = length s <-> forallb class s = true.
Proof.
  induction s as [|r t IH]; cbn [classRun forallb length]; [tauto|].
  destruct (class r); cbn [andb].
  - rewrite <- IH. split; intros H; [now injection H | now f_equal].
  - split; discriminate.
Qed.

Lemma replaceAll_ClassPlusEnd_run (s : gostring) (k : nat) :
  forallb class s = true ->
  replaceAllFrom (ClassPlusEnd class) [] k s = [].
Proof.
  revert k. induction s as [|r t IH]; intros k Hall; [reflexivity|].
  cbn [replaceAllFrom]. destruct k as [|k].
  - cbn [matchHere]. apply classRun_full in Hall as Hrun.
    rewrite Hrun, Nat.eqb_refl. cbn [length app].
    apply IH. cbn [forallb] in Hall. now apply andb_prop in Hall.
  - apply IH. cbn [forallb] in Hall. now apply andb_prop in Hall.
Qed.

(** Replacing [class+$] by nothing cuts the text in front of its final
    run of [class] runes. *)
Lemma replaceAll_ClassPlusEnd (s : gostring) :
  exists run,
    s = replaceAllFrom (ClassPlusEnd class) [] O s ++ run
    /\ forallb class run = true
    /\ (forall p c,
          replaceAllFrom (ClassPlusEnd class) [] O s = p ++ [c] ->
          class c = false).
Proof.
  induction s as [|r t IH].
  - exists []. repeat split. intros p c H. now destruct p.
  - destruct (forallb class (r :: t)) eqn:Hall.
    + exists (r :: t). rewrite replaceAll_ClassPlusEnd_run by exact Hall.
      repeat split; [exact Hall|]. intros p c H. now destruct p.
    + destruct IH as (run & Hsplit & Hrun & Hlast).
      assert (Hno : matchHere (ClassPlusEnd class) (r :: t) = O).
      { cbn [matchHere]. destruct (Nat.eqb _ _) eqn:E; [|reflexivity].
        apply Nat.eqb_eq, classRun_full in E. congruence. }
      cbn [replaceAllFrom]. rewrite Hno.
      exists run. split; [|split].
      * cbn [app]. now rewrite <- Hsplit.
      * exact Hrun.
      * intros p c H. destruct p as [|x p]; cbn [app] in H.
        -- injection H as -> Hnil. rewrite Hnil in Hsplit.
           cbn [app] in Hsplit. subst t. cbn [forallb] in Hall.
           rewrite Hrun, andb_true_r in Hall. exact Hall.
        -- injection H as _ Ht. now apply (Hlast p c).
Qed.
End TableNames.

Lemma filter_not_notAllowed (s : gostring) :
  List.filter (fun r => negb (negb (isAllowed r))) s = List.filter isAllowed s.
Proof.
  apply List.filter_ext. intros r. now rewrite negb_involutive.
Qed.

(** What [GenerateTableName] returns for a stream name that is not empty:
    the prefix followed by the allowed runes of the lowercased name with
    the final underscores cut off. *)
Lemma GenerateTableName_cons (lower : rune -> rune) (r : rune) (s : gostring) :
  exists name underscores,
    SingleStreamStrategy.GenerateTableName lower (r :: s)
    = (lit "events_" ++ name, None)
    /\ List.filter isAllowed (SingleStreamStrategy.ToLower lower (r :: s))
       = name ++ underscores
    /\ Forall (fun c => c = 95) underscores
    /\ (forall p, name <> p ++ [95]).
Proof.
  unfold SingleStreamStrategy.GenerateTableName.
  cbn [length Nat.eqb]. unfold ReplaceAllString, regNotAllowed.
  rewrite replaceAll_ClassPlus by apply Nat.le_0_l.
  rewrite filter_not_notAllowed.
  set (kept := List.filter isAllowed _).
  destruct (replaceAll_ClassPlusEnd isUnderscore kept)
    as (run & Hsplit & Hrun & Hlast).
  exists (replaceAllFrom regLastUnderScores [] O kept), run.
  split; [reflexivity|]. split; [exact Hsplit|]. split.
  - apply List.Forall_forall. intros c Hc.
    rewrite forallb_forall in Hrun. apply Hrun in Hc.
    unfold isUnderscore in Hc. lia.
  - intros p Hp. apply Hlast in Hp. discriminate Hp.
Qed.

(** C5. For every stream name, [GenerateTableName] lowercases it, removes
    every character outside [a-z0-9_], removes the trailing underscores
    and prefixes the result with [events_]: the name that follows the
    prefix, put in front of some run of underscores, is the lowercased
    stream name filtered to the allowed characters, and it does not end in
    an underscore.  "events-main/EU" maps to "events_eventsmaineu", and the
    empty stream name gives the error [ErrEmptyStreamName]. *)
Theorem GenerateTableName_normalizes (lower : rune -> rune) :
  (forall (r : rune) (s : gostring),
     exists name underscores,
       SingleStreamStrategy.GenerateTableName lower (r :: s)
       = (lit "events_" ++ name, None)
       /\ List.filter isAllowed (SingleStreamStrategy.ToLower lower (r :: s))
          = name ++ underscores
       /\ Forall (fun c => c = 95) underscores
       /\ (forall p, name <> p ++ [95]))
  /\ SingleStreamStrategy.GenerateTableName lower (lit "events-main/EU")
     = (lit "events_eventsmaineu", None)
  /\ SingleStreamStrategy.GenerateTableName lower []
     = ([], Some ErrEmptyStreamName).
Proof.
  split; [|split].
  - intros r s. apply GenerateTableName_cons.
  - reflexivity.
  - reflexivity.
Qed.

(** C10. For every stream name that is not empty,
    [SingleStreamStrategy.GenerateTableName] returns without error a name
    that starts with [events_] and so is not empty, also when
    normalization strips every character (as for "!!!"); a store that uses
    this strategy resolves the stream to that name and never returns
    [ErrTableNameEmpty], for any stream name. *)
Theorem tableName_never_ErrTableNameEmpty
    (P M W Tx Result Rows ES : Type)
    (json_Marshal : M -> list Byte.byte * option error)
    (quoteIdentifier : gostring -> gostring) (lower : rune -> rune)
    (s : SingleStreamStrategy.t P W)
    (d : EventStore.DB W Tx Result Rows)
    (mf : EventStore.MessageFactory W Rows ES)
    (cache : gmap Z gostring) (cols : gostring) :
  let e : EventStore.t P M W Tx Result Rows ES :=
    {| EventStore.persistenceStrategy :=
         SingleStreamStrategy.asPersistenceStrategy json_Marshal
           quoteIdentifier lower s;
       EventStore.db := d;
       EventStore.messageFactory := mf;
       EventStore.preparedInsertPlaceholder := cache;
       EventStore.columns := cols |} in
  (forall (r : rune) (rest : gostring),
     exists name,
       SingleStreamStrategy.GenerateTableName lower (r :: rest)
       = (lit "events_" ++ name, None)
       /\ lit "events_" ++ name <> []
       /\ EventStore.tableName e (r :: rest) = (lit "events_" ++ name, None))
  /\ SingleStreamStrategy.GenerateTableName lower (lit "!!!")
     = (lit "events_", None)
  /\ (forall streamName : gostring,
        snd (EventStore.tableName e streamName) <> Some ErrTableNameEmpty).
Proof.
  intros e.
  assert (Hcons : forall (r : rune) (rest : gostring),
            exists name,
              SingleStreamStrategy.GenerateTableName lower (r :: rest)
              = (lit "events_" ++ name, None)
              /\ lit "events_" ++ name <> []
              /\ EventStore.tableName e (r :: rest)
                 = (lit "events_" ++ name, None)).
  { intros r rest.
    destruct (GenerateTableName_cons lower r rest)
      as (name & underscores & Hgen & _).
    exists name. split; [exact Hgen|]. split; [discriminate|].
    unfold EventStore.tableName, e.
    cbn [EventStore.persistenceStrategy eventstore.GenerateTableName
         SingleStreamStrategy.asPersistenceStrategy].
    rewrite Hgen. reflexivity. }
  split; [exact Hcons|]. split; [reflexivity|].
  intros [|r rest].
  - cbn. discriminate.
  - destruct (Hcons r rest) as (name & _ & _ & Htable).
    rewrite Htable. cbn. discriminate.
Qed.

(** ** The retry loop of the stream projector *)

Section Retry.
Context {W Notification : Type}.
Variable resolve :
  StreamProjector.ProjectionErrorCallback W Notification ->
  option Notification -> error -> W -> W * StreamProjector.errorAction.
Variable s : StreamProjector.t W Notification.
Variable n : option Notification.

(** Attempts that fail and are retried use up one iteration each. *)
Lemma processNotification_loop_retried (k : nat) (w w1 : W) :
  retried resolve s n k w w1 ->
  forall todo : nat,
    StreamProjector.processNotification_loop resolve s n (k + todo) w
    = StreamProjector.processNotification_loop resolve s n todo w1.
Proof.
  induction 1 as [w | k w w1 w2 w3 err _ IH Hexec Hres]; intros todo.
  - reflexivity.
  - replace (S k + todo)%nat with (k + S todo)%nat by lia.
    rewrite IH. cbn [StreamProjector.processNotification_loop].
    rewrite Hexec, Hres. reflexivity.
Qed.

Lemma processNotification_succeeds_after (k : nat) (w w1 w2 : W) :
  retried resolve s n k w w1 ->
  (k < Z.to_nat StreamProjector.MaxInt16)%nat ->
  StreamProjector.Execute (StreamProjector.executor s) n w1 = (w2, None) ->
  StreamProjector.processNotification resolve s n w = (w2, None).
Proof.
  intros Hk Hlt Hexec. unfold StreamProjector.processNotification.
  replace (Z.to_nat StreamProjector.MaxInt16)
    with (k + S (Z.to_nat StreamProjector.MaxInt16 - S k))%nat by lia.
  rewrite (processNotification_loop_retried k w w1 Hk).
  cbn [StreamProjector.processNotification_loop].
  rewrite Hexec. reflexivity.
Qed.

Lemma processNotification_exhausted (w w1 : W) :
  retried resolve s n (Z.to_nat StreamProjector.MaxInt16) w w1 ->
  StreamProjector.processNotification resolve s n w
  = (w1, Some StreamProjector.retriesExhausted).
Proof.
  intros Hk. unfold StreamProjector.processNotification.
  rewrite <- (Nat.add_0_r (Z.to_nat StreamProjector.MaxInt16)).
  rewrite (processNotification_loop_retried _ w w1 Hk).
  reflexivity.
Qed.
End Retry.

(** The fold of [fake.flaky] fails and is retried as long as its attempts
    stay below [succeedsAt]. *)
Lemma flaky_retried (succeedsAt : Z) (k : nat) (attempts : Z) :
  attempts = Z.of_nat k ->
  attempts < succeedsAt ->
  retried StreamProjector.resolveErrorAction
    (fake.projector succeedsAt StreamProjector.ProjectionRetry) None
    k 0 attempts.
Proof.
  intros ->. induction k as [|k IH]; intros Hlt.
  - apply retried_O.
  - apply (retried_S _ _ _ k 0 (Z.of_nat k) (Z.of_nat (S k))
             (Z.of_nat (S k)) (Errorf (lit "projection failed"))).
    + apply IH. lia.
    + cbn [fake.projector StreamProjector.executor StreamProjector.Execute
           fake.flaky].
      replace (Z.of_nat k + 1) with (Z.of_nat (S k)) by lia.
      destruct (Z.ltb_spec (Z.of_nat (S k)) succeedsAt); [reflexivity | lia].
    + reflexivity.
Qed.

(** C1, as the code has it. For every notification: however often the fold
    fails and the resolved action is Retry, [processNotification] invokes
    the fold again with the same notification, up to [math.MaxInt16]
    = 2^15 - 1 = 32767 attempts in all.  A success at one of these
    attempts is returned as success; when all 32767 attempts have failed,
    the fold is not invoked again and the error [retriesExhausted] is
    returned instead of success. *)
Theorem processNotification_retry_ceiling
    (W Notification : Type)
    (resolve : StreamProjector.ProjectionErrorCallback W Notification ->
               option Notification -> error ->
               W -> W * StreamProjector.errorAction)
    (s : StreamProjector.t W Notification) (n : option Notification)
    (w : W) :
  StreamProjector.MaxInt16 = 2 ^ 15 - 1
  /\ (forall (k : nat) (w1 w2 : W),
        retried resolve s n k w w1 ->
        (k < Z.to_nat StreamProjector.MaxInt16)%nat ->
        StreamProjector.Execute (StreamProjector.executor s) n w1
        = (w2, None) ->
        StreamProjector.processNotification resolve s n w = (w2, None))
  /\ (forall w1 : W,
        retried resolve s n (Z.to_nat StreamProjector.MaxInt16) w w1 ->
        StreamProjector.processNotification resolve s n w
        = (w1, Some StreamProjector.retriesExhausted)).
Proof.
  split; [reflexivity|]. split.
  - intros k w1 w2. apply processNotification_succeeds_after.
  - intros w1. apply processNotification_exhausted.
Qed.

Lemma processNotification_retry_ceiling_witness :
  StreamProjector.processNotification StreamProjector.resolveErrorAction
    (fake.projector 3 StreamProjector.ProjectionRetry) None 0 = (3, None)
  /\ StreamProjector.processNotification StreamProjector.resolveErrorAction
       (fake.projector (2 ^ 15) StreamProjector.ProjectionRetry) None 0
     = (32767, Some StreamProjector.retriesExhausted).
Proof.
  split.
  - apply (proj1 (proj2 (processNotification_retry_ceiling Z unit
             StreamProjector.resolveErrorAction
             (fake.projector 3 StreamProjector.ProjectionRetry) None 0))
             2%nat 2 3).
    + apply (flaky_retried 3 2 2); lia.
    + unfold StreamProjector.MaxInt16. lia.
    + reflexivity.
  - apply (proj2 (proj2 (processNotification_retry_ceiling Z unit
             StreamProjector.resolveErrorAction
             (fake.projector (2 ^ 15) StreamProjector.ProjectionRetry)
             None 0)) 32767).
    apply (flaky_retried (2 ^ 15) (Z.to_nat StreamProjector.MaxInt16) 32767);
      unfold StreamProjector.MaxInt16; lia.
Defined.

(** C1 as stated fails: with a callback that always answers Retry and a
    fold that would succeed at its attempt number 2^15, the fold is
    invoked 2^15 - 1 times only and the error is returned. *)
Lemma processNotification_gives_up_before_2_15 :
  let s := fake.projector (2 ^ 15) StreamProjector.ProjectionRetry in
  StreamProjector.processNotification StreamProjector.resolveErrorAction
    s None 0
  = (2 ^ 15 - 1, Some StreamProjector.retriesExhausted)
  /\ snd (StreamProjector.Execute (StreamProjector.executor s) None
            (2 ^ 15 - 1)) = None.
Proof.
  split; vm_compute; reflexivity.
Qed.

(** C6. For every error returned by the fold, at the first attempt or
    after retries: if the error callback returns an action that is none of
    Retry, Ignore, Fail and Fallthrough, [processNotification] does what
    it does for Fail and returns the error of the fold to the caller. *)
Theorem processNotification_unrecognized_action_fails
    (W Notification : Type) (s : StreamProjector.t W Notification)
    (n : option Notification) (k : nat) (w w1 w2 w3 : W) (err : error)
    (action : StreamProjector.ProjectionErrorAction) :
  retried StreamProjector.resolveErrorAction s n k w w1 ->
  (k < Z.to_nat StreamProjector.MaxInt16)%nat ->
  StreamProjector.Execute (StreamProjector.executor s) n w1
  = (w2, Some err) ->
  StreamProjector.projectionErrorHandler s err n w2 = (w3, action) ->
  (action = StreamProjector.ProjectionFail
   \/ exists code, action = StreamProjector.ProjectionOther code) ->
  StreamProjector.processNotification StreamProjector.resolveErrorAction
    s n w = (w3, Some err).
Proof.
  intros Hk Hlt Hexec Hcb Haction.
  unfold StreamProjector.processNotification.
  replace (Z.to_nat StreamProjector.MaxInt16)
    with (k + S (Z.to_nat StreamProjector.MaxInt16 - S k))%nat by lia.
  rewrite (processNotification_loop_retried _ s n k w w1 Hk).
  cbn [StreamProjector.processNotification_loop].
  rewrite Hexec. unfold StreamProjector.resolveErrorAction at 1.
  rewrite Hcb.
  destruct Haction as [-> | [code ->]]; reflexivity.
Qed.

Lemma processNotification_unrecognized_action_fails_witness :
  StreamProjector.processNotification StreamProjector.resolveErrorAction
    (fake.projector 100 (StreamProjector.ProjectionOther 7)) None 0
  = (1, Some (Errorf (lit "projection failed"))).
Proof.
  apply (processNotification_unrecognized_action_fails Z unit
           (fake.projector 100 (StreamProjector.ProjectionOther 7)) None
           O 0 0 1 1 (Errorf (lit "projection failed"))
           (StreamProjector.ProjectionOther 7)).
  - apply retried_O.
  - unfold StreamProjector.MaxInt16. lia.
  - reflexivity.
  - reflexivity.
  - right. exists 7. reflexivity.
Defined.

(** ** The parameter vector of [PrepareData] *)

Section PrepareDataProps.
Context {P M W : Type}.
Variable json_Marshal : M -> list Byte.byte * option error.
Variable s : SingleStreamStrategy.t P W.

(** One row of the vector, as the loop appends it. *)
Lemma cells_of_row (msg : Message P M) (w : W) :
  map (cell json_Marshal s msg w) SingleStreamStrategy.ColumnNames
  = [ anyUUID (UUID msg);
      anyString (fst (fst (snd (convert s msg w))));
      anyBytes (snd (fst (snd (convert s msg w))));
      anyBytes (fst (json_Marshal (Metadata msg)));
      anyTime (CreatedAt msg) ].
Proof.
  unfold cell. destruct (snd (convert s msg w)) as [[payloadType payloadData] err].
  reflexivity.
Qed.

Lemma rows_length (messages : list (Message P M)) (w : W) :
  length (rows json_Marshal s messages w) = (length messages * 5)%nat.
Proof.
  revert w. induction messages as [|msg rest IH]; intros w; [reflexivity|].
  cbn [rows length]. rewrite length_app, length_map, IH. reflexivity.
Qed.

Lemma PrepareData_loop_rows (messages : list (Message P M))
    (out : list any) (w : W) :
  allSucceed json_Marshal s messages w ->
  SingleStreamStrategy.PrepareData_loop json_Marshal s messages out w
  = (converted s messages w,
     (out ++ rows json_Marshal s messages w, None)).
Proof.
  revert out w. induction messages as [|msg rest IH]; intros out w Hok.
  - cbn. now rewrite app_nil_r.
  - destruct Hok as (Hconv & Hjson & Hrest).
    cbn [SingleStreamStrategy.PrepareData_loop rows converted fold_left].
    rewrite cells_of_row. unfold convert in *.
    destruct (eventstore.ConvertPayload _ _ w)
      as [w1 [[payloadType payloadData] err]].
    cbn [fst snd] in *. subst err.
    destruct (json_Marshal (Metadata msg)) as [meta err].
    cbn [fst snd] in *. subst err.
    rewrite (IH _ w1 Hrest). unfold converted, convert.
    now rewrite <- app_assoc.
Qed.

Lemma PrepareData_loop_fails (pre post : list (Message P M))
    (msg : Message P M) (out : list any) (w : W) (e : error) :
  allSucceed json_Marshal s pre w ->
  failsWith json_Marshal s msg (converted s pre w) e ->
  SingleStreamStrategy.PrepareData_loop json_Marshal s
    (pre ++ msg :: post) out w
  = (converted s (pre ++ [msg]) w, ([], Some e)).
Proof.
  revert out w. induction pre as [|m0 pre IH]; intros out w Hok Hfail.
  - cbn [app SingleStreamStrategy.PrepareData_loop converted fold_left]
      in *.
    unfold failsWith, convert in *.
    destruct (eventstore.ConvertPayload _ _ w)
      as [w1 [[payloadType payloadData] err]].
    cbn [fst snd] in *.
    destruct Hfail as [-> | [-> Hjson]]; [reflexivity|].
    destruct (json_Marshal (Metadata msg)) as [meta err].
    cbn [snd] in Hjson. now subst err.
  - destruct Hok as (Hconv & Hjson & Hrest).
    cbn [app SingleStreamStrategy.PrepareData_loop converted fold_left]
      in *.
    unfold convert in *.
    destruct (eventstore.ConvertPayload _ _ w)
      as [w1 [[payloadType payloadData] err]].
    cbn [fst snd] in *. subst err.
    destruct (json_Marshal (Metadata m0)) as [meta err].
    cbn [snd] in Hjson. subst err.
    apply IH; assumption.
Qed.
End PrepareDataProps.

(** C7. For every list of messages on which the converter and the JSON
    encoding of the metadata succeed, [PrepareData] returns the vector
    [rows]: for each message, in order, the cells of the columns event_id,
    event_name, payload, metadata, created_at in this declared order; its
    length is the number of messages times 5, the number of columns; and
    the converter has been invoked exactly once per message, in order
    ([converted]).  If the converter or the encoding fails on a message
    (those before it succeeding), [PrepareData] returns that error and a
    nil vector, the converter having been invoked up to this message. *)
Theorem PrepareData_layout
    (P M W : Type) (json_Marshal : M -> list Byte.byte * option error)
    (s : SingleStreamStrategy.t P W) :
  (forall (messages : list (Message P M)) (w : W),
     allSucceed json_Marshal s messages w ->
     SingleStreamStrategy.PrepareData json_Marshal s messages w
     = (converted s messages w, (rows json_Marshal s messages w, None))
     /\ length (rows json_Marshal s messages w) = (length messages * 5)%nat
     /\ length (rows json_Marshal s messages w)
        = (length messages * length SingleStreamStrategy.ColumnNames)%nat)
  /\ (forall (pre post : list (Message P M)) (msg : Message P M) (w : W)
        (e : error),
        allSucceed json_Marshal s pre w ->
        failsWith json_Marshal s msg (converted s pre w) e ->
        SingleStreamStrategy.PrepareData json_Marshal s
          (pre ++ msg :: post) w
        = (converted s (pre ++ [msg]) w, ([], Some e))).
Proof.
  split.
  - intros messages w Hok. split; [|split].
    + unfold SingleStreamStrategy.PrepareData.
      now rewrite (PrepareData_loop_rows json_Marshal s messages [] w Hok).
    + apply rows_length.
    + rewrite rows_length. reflexivity.
  - intros pre post msg w e Hok Hfail.
    now apply PrepareData_loop_fails.
Qed.

Lemma PrepareData_layout_witness :
  let s := {| SingleStreamStrategy.converter := fake.converter |} in
  let m1 := NewDummyMessage [Byte.x01] 7 true 1000 in
  let m2 := NewDummyMessage [Byte.x02] 8 true 2000 in
  let bad := NewDummyMessage [Byte.x03] (-1) true 3000 in
  (SingleStreamStrategy.PrepareData fake.json_Marshal s [m1; m2] fake.empty
   = ({| fake.schema := []; fake.openTx := None; fake.received := [];
         fake.conversions := 2 |},
      ([ anyUUID [Byte.x01]; anyString (lit "n7"); anyBytes [];
         anyBytes [Byte.x7b; Byte.x7d]; anyTime 1000;
         anyUUID [Byte.x02]; anyString (lit "n8"); anyBytes [];
         anyBytes [Byte.x7b; Byte.x7d]; anyTime 2000 ], None)))
  /\ SingleStreamStrategy.PrepareData fake.json_Marshal s [m1; bad; m2]
       fake.empty
     = ({| fake.schema := []; fake.openTx := None; fake.received := [];
           fake.conversions := 2 |},
        ([], Some (Errorf (lit "payload cannot be converted")))).
Proof.
  intros s m1 m2 bad. split.
  - apply (proj1 (PrepareData_layout Z bool fake.world fake.json_Marshal s)
             [m1; m2] fake.empty).
    repeat split.
  - apply (proj2 (PrepareData_layout Z bool fake.world fake.json_Marshal s)
             [m1] [m2] bad fake.empty
             (Errorf (lit "payload cannot be converted"))).
    + repeat split.
    + left. reflexivity.
Defined.

(** ** Draining an event stream *)

Section Drain.
Context {Msg St : Type}.
Variable stream : EventStream.t Msg St.

Lemma ReadEventStream_loop_drained (s s' : St) (yielded : list (Msg * Z))
    (o : ending) :
  drained stream s yielded s' o ->
  forall (fuel : nat) (messages : list Msg) (messageNumbers : list Z),
    (length yielded < fuel)%nat ->
    goengine.ReadEventStream_loop fuel stream messages messageNumbers s
    = Some (s',
            match o with
            | ended None =>
                (messages ++ map fst yielded,
                 messageNumbers ++ map snd yielded, None)
            | ended (Some e) => ([], [], Some e)
            | failed e => ([], [], Some e)
            end).
Proof.
  induction 1 as [s s1 s2 err Hnext Herr
                 | s s1 s2 msg number e Hnext Hmsg
                 | s s1 s2 msg number yielded s3 o Hnext Hmsg _ IH];
    intros fuel messages messageNumbers Hfuel;
    (destruct fuel as [|fuel]; [cbn [length] in Hfuel; lia|]);
    cbn [goengine.ReadEventStream_loop]; rewrite Hnext.
  - rewrite Herr. destruct err; cbn [map]; [reflexivity|].
    now rewrite !app_nil_r.
  - rewrite Hmsg. reflexivity.
  - rewrite Hmsg. rewrite IH by (cbn [length] in Hfuel; lia).
    destruct o as [[e|]|e]; try reflexivity.
    cbn [map fst snd]. now rewrite <- !app_assoc.
Qed.

(** When the loop returns, the stream was drained as the result says. *)
Lemma ReadEventStream_loop_inv (fuel : nat) :
  forall (s s' : St) (messages : list Msg) (messageNumbers : list Z)
    (result : list Msg * list Z * option error),
    goengine.ReadEventStream_loop fuel stream messages messageNumbers s
    = Some (s', result) ->
    exists yielded o,
      drained stream s yielded s' o
      /\ (length yielded < fuel)%nat.
Proof.
  induction fuel as [|fuel IH];
    intros s s' messages messageNumbers result Hread; [discriminate|].
  cbn [goengine.ReadEventStream_loop] in Hread.
  destruct (EventStream.Next stream s) as [s1 more] eqn:Hnext.
  destruct more.
  - destruct (EventStream.Message stream s1) as [s2 [[msg number] err]]
      eqn:Hmsg.
    destruct err as [e|].
    + injection Hread as <- _. exists [], (failed e). split.
      * eapply drained_fail; eassumption.
      * cbn. lia.
    + apply IH in Hread as (yielded & o & Hd & Hlen).
      exists ((msg, number) :: yielded), o. split.
      * eapply drained_row; eassumption.
      * cbn [length]. lia.
  - destruct (EventStream.Err stream s1) as [s2 err] eqn:Herr.
    exists [], (ended err). split.
    + assert (s' = s2) as -> by (destruct err; now injection Hread).
      eapply drained_end; eassumption.
    + cbn. lia.
Qed.
End Drain.



(** ** The bank account *)

(** C9. From a fresh account, replaying AccountOpened, AccountCredited
    100, AccountDebited 10 and AccountDebited 20 (versions 1 to 4) through
    [Apply] yields [Balance() = 70]; and [OpenBankAccount], [Deposit 100],
    [Withdraw 10], [Withdraw 20] all succeed, record exactly these four
    changes and leave the same balance. *)
Theorem BankAccount_balance_70 (id : aggregate.ID) :
  let changes :=
    [ {| aggregate.aggregateID := id;
         aggregate.payload := BankAccount.AccountOpened id;
         aggregate.version := 1 |};
      {| aggregate.aggregateID := id;
         aggregate.payload := BankAccount.AccountCredited 100;
         aggregate.version := 2 |};
      {| aggregate.aggregateID := id;
         aggregate.payload := BankAccount.AccountDebited 10;
         aggregate.version := 3 |};
      {| aggregate.aggregateID := id;
         aggregate.payload := BankAccount.AccountDebited 20;
         aggregate.version := 4 |} ] in
  BankAccount.Balance (fold_left BankAccount.Apply changes BankAccount.zero)
  = 70
  /\ exists a1 a2 a3 a4,
       BankAccount.OpenBankAccount id = (a1, None)
       /\ BankAccount.Deposit a1 100 = (a2, None)
       /\ BankAccount.Withdraw a2 10 = (a3, None)
       /\ BankAccount.Withdraw a3 20 = (a4, None)
       /\ aggregate.recordedEvents (BankAccount.BaseRoot a4) = changes
       /\ BankAccount.Balance a4 = 70
       /\ BankAccount.Balance a4
          = BankAccount.Balance
              (fold_left BankAccount.Apply changes BankAccount.zero).
Proof.
  intros changes. split; [reflexivity|].
  eexists _, _, _, _. repeat split.
Qed.

(** ** The statement of [Load] *)

Section LoadQuery.
Variable quoteString : gostring -> gostring.

Lemma matchConditions_fold (cs : list metadata.Constraint) (i : Z)
    (conditions : list gostring) (params : list any) :
  metadata.Iterate cs
    (fun c '(i, conditions, params) =>
       let i := i + 1 in
       let condition :=
         lit "metadata ->> " ++ quoteString (metadata.Field c)
         ++ lit " " ++ metadata.Operator c ++ lit " $" ++ Itoa i in
       (i, conditions ++ [condition], params ++ [metadata.Value c]))
    (i, conditions, params)
  = (i + Z.of_nat (length cs),
     conditions
     ++ imap (fun j c => conditionOf quoteString (i + Z.of_nat j + 1) c) cs,
     params ++ map metadata.Value cs).
Proof.
  unfold metadata.Iterate.
  revert i conditions params.
  induction cs as [|c cs IH]; intros i conditions params.
  - cbn. rewrite !app_nil_r. f_equal. f_equal. lia.
  - cbn [fold_left length map imap]. rewrite IH.
    rewrite <- !app_assoc. cbn [app].
    replace (i + Z.of_nat (S (length cs)))
      with (i + 1 + Z.of_nat (length cs)) by lia.
    replace (conditionOf quoteString (i + Z.of_nat 0 + 1) c)
      with (lit "metadata ->> " ++ quoteString (metadata.Field c)
            ++ lit " " ++ metadata.Operator c ++ lit " $" ++ Itoa (i + 1))
      by (unfold conditionOf; repeat f_equal; lia).
    do 4 f_equal. apply imap_ext. intros j x _. unfold compose.
    replace (i + Z.of_nat (S j) + 1) with (i + 1 + Z.of_nat j + 1) by lia.
    reflexivity.
Qed.

Lemma matchConditions_constraints (matcher : option metadata.Matcher) :
  EventStore.matchConditions quoteString matcher
  = (imap (fun j c => conditionOf quoteString (Z.of_nat j + 1) c)
       (constraintsOf matcher),
     map metadata.Value (constraintsOf matcher)).
Proof.
  destruct matcher as [cs|]; [|reflexivity].
  unfold EventStore.matchConditions. rewrite matchConditions_fold.
  reflexivity.
Qed.
End LoadQuery.

(** C4. For every matcher with k constraints (a nil matcher has none) and
    every fromNumber, [Load] hands to the database the statement
    [SELECT * FROM <table> WHERE <conditions> ORDER BY no <limit>] whose
    conditions, joined by [AND], are one fragment
    [metadata ->> '<field>' <op> $n] per constraint, n = 1..k in the order
    of iteration, followed by [no >= $k+1]; the parameters are the k
    values of the matcher, in order, then fromNumber; and the [LIMIT]
    clause is there exactly when count is not nil. *)
Theorem Load_query_shape
    (P M W Tx Result Rows ES : Type) (quoteString : gostring -> gostring)
    (e : EventStore.t P M W Tx Result Rows ES)
    (streamName table : gostring) (fromNumber : Z) (count : option Z)
    (matcher : option metadata.Matcher) (w : W) :
  EventStore.tableName e streamName = (table, None) ->
  let constraints := constraintsOf matcher in
  let k := Z.of_nat (length constraints) in
  let conditions :=
    imap (fun j c => conditionOf quoteString (Z.of_nat j + 1) c) constraints
    ++ [lit "no >= $" ++ Itoa (k + 1)] in
  let query :=
    lit "SELECT * FROM " ++ table ++ lit " WHERE "
    ++ Join conditions (lit " AND ") ++ lit " ORDER BY no "
    ++ limitClause count in
  let params := map metadata.Value constraints ++ [anyInt64 fromNumber] in
  EventStore.loadQuery quoteString table fromNumber count matcher
  = (query, params)
  /\ EventStore.Load quoteString e streamName fromNumber count matcher w
     = (let '(w, (rows, err)) :=
          EventStore.QueryContext (EventStore.db e) query params w in
        match err with
        | Some err => (w, (None, Some err))
        | None =>
            EventStore.CreateEventStream (EventStore.messageFactory e) rows w
        end)
  /\ length params = S (length constraints)
  /\ (limitClause count = [] <-> count = None).
Proof.
  intros Htable constraints k conditions query params.
  assert (Hquery : EventStore.loadQuery quoteString table fromNumber count
                     matcher = (query, params)).
  { unfold EventStore.loadQuery. rewrite matchConditions_constraints.
    fold constraints. unfold query, conditions, params, limitClause, k.
    rewrite length_app, length_map. cbn [length].
    replace (Z.of_nat (length constraints + 1))
      with (Z.of_nat (length constraints) + 1) by lia.
    reflexivity. }
  split; [exact Hquery|]. split; [|split].
  - unfold EventStore.Load. rewrite Htable, Hquery. reflexivity.
  - unfold params. rewrite length_app, length_map. cbn [length]. lia.
  - destruct count; cbn; split; congruence.
Qed.

Lemma Load_query_shape_witness :
  let region :=
    {| metadata.Field := lit "region"; metadata.Operator := lit "=";
       metadata.Value := anyString (lit "EU") |} in
  let version :=
    {| metadata.Field := lit "_aggregate_version";
       metadata.Operator := lit ">"; metadata.Value := anyInt64 3 |} in
  EventStore.loadQuery fake.quoteString (lit "events_orders") 5 (Some 10)
    (Some [region; version])
  = (lit "SELECT * FROM events_orders WHERE metadata ->> 'region' = $1 AND metadata ->> '_aggregate_version' > $2 AND no >= $3 ORDER BY no LIMIT 10",
     [anyString (lit "EU"); anyInt64 3; anyInt64 5])
  /\ EventStore.loadQuery fake.quoteString (lit "events_orders") 5 None None
     = (lit "SELECT * FROM events_orders WHERE no >= $1 ORDER BY no ",
        [anyInt64 5]).
Proof.
  intros region version. split.
  - apply (Load_query_shape Z bool fake.world unit unit unit unit
             fake.quoteString (fake.store (fun _ => None) None)
             (lit "orders") (lit "events_orders") 5 (Some 10)
             (Some [region; version]) fake.empty).
    reflexivity.
  - apply (Load_query_shape Z bool fake.world unit unit unit unit
             fake.quoteString (fake.store (fun _ => None) None)
             (lit "orders") (lit "events_orders") 5 None None fake.empty).
    reflexivity.
Defined.

(** ** Appending and creating *)

(** With an empty list of messages [AppendTo] still sends an [INSERT]
    statement, one without any row, and returns what the database says. *)
Lemma AppendTo_nil_executes
    (P M W Tx Result Rows ES : Type)
    (e : EventStore.t P M W Tx Result Rows ES)
    (streamName table : gostring) (w w1 : W) (data : list any) :
  EventStore.tableName e streamName = (table, None) ->
  eventstore.PrepareData (EventStore.persistenceStrategy e) [] w
  = (w1, (data, None)) ->
  EventStore.AppendTo e streamName [] w
  = (let '(w2, (_, err)) :=
       EventStore.ExecContext (EventStore.db e)
         (lit "INSERT INTO " ++ table ++ lit " (" ++ EventStore.columns e
          ++ lit ") VALUES ;") data w1 in
     ((e, w2), err)).
Proof.
  intros Htable Hdata. unfold EventStore.AppendTo.
  rewrite Htable, Hdata.
  change (EventStore.prepareInsertValues e [] _) with (e, @nil rune).
  cbn [app].
  destruct (EventStore.ExecContext _ _ _ _) as [w2 [r [err|]]]; reflexivity.
Qed.

(** C2 fails on the code. The stream "orders" resolves to the table
    [events_orders]; [AppendTo] with an empty list sends the statement
    [INSERT INTO events_orders (...) VALUES ;] to the database.  A
    database that refuses it makes [AppendTo] return that error instead of
    success; a database that takes every statement has executed an
    insert. *)
Theorem AppendTo_nil_sends_insert :
  let insert :=
    lit "INSERT INTO events_orders (event_id, event_name, payload, metadata, created_at) VALUES ;" in
  let strict := fake.store fake.rejectsNoRows None in
  let lax := fake.store (fun _ => None) None in
  EventStore.tableName strict (lit "orders") = (lit "events_orders", None)
  /\ (exists w',
        EventStore.AppendTo strict (lit "orders") [] fake.empty
        = ((strict, w'), Some (Errorf (lit "pq: syntax error at or near ;")))
        /\ fake.received w' = [insert])
  /\ (exists w',
        EventStore.AppendTo lax (lit "orders") [] fake.empty
        = ((lax, w'), None)
        /\ fake.schema fake.empty = []
        /\ fake.schema w' = [insert]).
Proof.
  intros insert strict lax. split; [reflexivity|]. split.
  - eexists. split; vm_compute; reflexivity.
  - eexists. repeat split; vm_compute; reflexivity.
Qed.

(** The loop of [Create] at a statement that fails, in any database: the
    transaction is rolled back and the error of the statement is returned,
    or the composite of the error of the rollback and of that error. *)
Lemma Create_loop_failure
    (P M W Tx Result Rows ES : Type)
    (e : EventStore.t P M W Tx Result Rows ES) (tx : Tx)
    (q : gostring) (rest : list gostring) (w w1 : W) (r : Result)
    (err : error) :
  EventStore.ExecContext (EventStore.db e) q [] w = (w1, (r, Some err)) ->
  EventStore.Create_loop e tx (q :: rest) w
  = (fst (EventStore.Rollback (EventStore.db e) tx w1),
     match snd (EventStore.Rollback (EventStore.db e) tx w1) with
     | Some errRollback =>
         Some (Errorf (lit "error one: " ++ Error errRollback ++ [10]
                       ++ lit "error two: " ++ Error err))
     | None => Some err
     end).
Proof.
  intros Hexec. cbn [EventStore.Create_loop]. rewrite Hexec.
  destruct (EventStore.Rollback _ tx w1) as [w2 [errRollback|]]; reflexivity.
Qed.

(** C3 fails on the code. Creating the stream "orders" on a database that
    cannot build the unique index returns the error of that statement,
    composed with the error of the rollback when the rollback fails too;
    but the [CREATE TABLE] statement executed before it keeps its effect:
    the statements do not run in the transaction that is rolled back. *)
Theorem Create_keeps_earlier_statements :
  let failure := Errorf (lit "pq: could not create unique index") in
  (exists w' created,
     EventStore.Create (fake.store fake.rejectsUniqueIndex None)
       (lit "orders") fake.empty = (w', Some failure)
     /\ fake.schema fake.empty = []
     /\ fake.schema w' = [created]
     /\ HasPrefix created (lit "CREATE TABLE ") = true
     /\ fake.openTx w' = None)
  /\ (exists w' created,
        EventStore.Create
          (fake.store fake.rejectsUniqueIndex
             (Some (Errorf (lit "driver: bad connection"))))
          (lit "orders") fake.empty
        = (w', Some (Errorf (lit "error one: driver: bad connection"
                             ++ [10]
                             ++ lit "error two: pq: could not create unique index")))
        /\ fake.schema w' = [created]
        /\ HasPrefix created (lit "CREATE TABLE ") = true).
Proof.
  intros failure. split.
  - eexists _, _. repeat split.
  - eexists _, _. repeat split.
Qed.

(** ** The placeholders of an insert *)

Lemma Join_cons_concat (x : gostring) (xs : list gostring) (sep : gostring) :
  Join (x :: xs) sep = x ++ concat (map (fun y => sep ++ y) xs).
Proof.
  revert x. induction xs as [|y ys IH]; intros x.
  - cbn. now rewrite app_nil_r.
  - change (Join (x :: y :: ys) sep) with (x ++ sep ++ Join (y :: ys) sep).
    rewrite IH. cbn [map concat]. now rewrite <- !app_assoc.
Qed.

Section Placeholders.
Variable c : nat.
Hypothesis c_pos : (0 < c)%nat.

Let cellAt (row j : nat) : gostring :=
  lit "$" ++ Itoa (Z.of_nat (row * c + j) + 1).

(** The cells of a row after the first one. *)
Lemma placeholders_loop_cells (row m j0 : nat) (acc : gostring) :
  (0 < j0)%nat -> (j0 + m <= c)%nat ->
  EventStore.placeholders_loop (Z.of_nat c) m (Z.of_nat (row * c + j0)) acc
  = acc ++ concat (map (fun j => lit "," ++ cellAt row j) (seq j0 m)).
Proof using c_pos.
  revert j0 acc. induction m as [|m IH]; intros j0 acc Hj0 Hle.
  - cbn. now rewrite app_nil_r.
  - cbn [EventStore.placeholders_loop seq map concat].
    assert (Hrem : (Z.rem (Z.of_nat (row * c + j0)) (Z.of_nat c) =? 0) = false).
    { apply Z.eqb_neq. rewrite Z.rem_mod_nonneg by lia.
      rewrite Nat2Z.inj_add, Nat2Z.inj_mul, Z.add_comm, Z.mod_add by lia.
      rewrite Z.mod_small by lia. lia. }
    rewrite Hrem.
    replace (Z.of_nat (row * c + j0) + 1)
      with (Z.of_nat (row * c + S j0)) at 1 by lia.
    rewrite IH by lia. unfold cellAt. now rewrite <- !app_assoc.
Qed.

(** One row: the separator from the row before, the opening parenthesis
    and the cells. *)
Lemma placeholders_loop_row_gen (row m : nat) (acc : gostring) :
  m = c ->
  EventStore.placeholders_loop (Z.of_nat c) m (Z.of_nat (row * c)) acc
  = acc ++ (if Nat.eqb row 0 then [] else lit "),") ++ lit "("
    ++ Join (map (cellAt row) (seq 0 m)) (lit ",").
Proof using c_pos.
  intros Hm. destruct m as [|m]; [lia|].
  cbn [EventStore.placeholders_loop].
  assert (Hrem : (Z.rem (Z.of_nat (row * c)) (Z.of_nat c) =? 0) = true).
  { apply Z.eqb_eq. rewrite Z.rem_mod_nonneg by lia.
    rewrite Nat2Z.inj_mul. apply Z.mod_mul. lia. }
  rewrite Hrem.
  assert (Hzero : negb (Z.of_nat (row * c) =? 0) = negb (Nat.eqb row 0)).
  { f_equal. destruct (Nat.eqb_spec row 0) as [->|Hne].
    - reflexivity.
    - apply Z.eqb_neq. nia. }
  rewrite Hzero.
  replace (Z.of_nat (row * c) + 1) with (Z.of_nat (row * c + 1)) at 1 by lia.
  rewrite (placeholders_loop_cells row m 1) by lia.
  cbn [seq map]. rewrite Join_cons_concat.
  rewrite <- seq_shift, !map_map.
  unfold cellAt. rewrite Nat.add_0_r.
  replace (Z.of_nat (row * c + 1)) with (Z.of_nat (row * c) + 1) by lia.
  destruct (Nat.eqb row 0); cbn [negb app]; rewrite <- ?app_assoc;
    reflexivity.
Qed.

Lemma placeholders_loop_row (row : nat) (acc : gostring) :
  EventStore.placeholders_loop (Z.of_nat c) c (Z.of_nat (row * c)) acc
  = acc ++ (if Nat.eqb row 0 then [] else lit "),") ++ lit "("
    ++ Join (map (cellAt row) (seq 0 c)) (lit ",").
Proof using c_pos.
  now apply placeholders_loop_row_gen.
Qed.

Lemma placeholders_loop_app (a b : nat) (i : Z) (acc : gostring) :
  EventStore.placeholders_loop (Z.of_nat c) (a + b) i acc
  = EventStore.placeholders_loop (Z.of_nat c) b (i + Z.of_nat a)
      (EventStore.placeholders_loop (Z.of_nat c) a i acc).
Proof using c_pos.
  revert i acc. induction a as [|a IH]; intros i acc.
  - cbn [Nat.add EventStore.placeholders_loop]. f_equal. lia.
  - cbn [Nat.add EventStore.placeholders_loop]. rewrite IH.
    f_equal. lia.
Qed.

(** The rows from [row] on. *)
Lemma placeholders_loop_rows (n row : nat) (acc : gostring) :
  EventStore.placeholders_loop (Z.of_nat c) (n * c) (Z.of_nat (row * c)) acc
  = acc
    ++ concat (map (fun r => (if Nat.eqb r 0 then [] else lit "),")
                             ++ lit "("
                             ++ Join (map (cellAt r) (seq 0 c)) (lit ","))
                 (seq row n)).
Proof using c_pos.
  revert row acc. induction n as [|n IH]; intros row acc.
  - cbn. now rewrite app_nil_r.
  - cbn [Nat.mul]. rewrite placeholders_loop_app, placeholders_loop_row.
    replace (Z.of_nat (row * c) + Z.of_nat c) with (Z.of_nat (S row * c))
      by lia.
    rewrite IH. cbn [seq map concat]. now rewrite <- !app_assoc.
Qed.

Lemma close_groups (rows : list nat) :
  concat (map (fun r => lit ")," ++ lit "("
                        ++ Join (map (cellAt r) (seq 0 c)) (lit ","))
            rows) ++ lit ")"
  = lit ")" ++ concat (map (fun r => lit "," ++ placeholderGroup c r) rows).
Proof using c_pos.
  induction rows as [|r rows IH]; [reflexivity|].
  cbn [map concat]. rewrite <- !app_assoc, IH.
  unfold placeholderGroup, cellAt. rewrite <- !app_assoc. reflexivity.
Qed.

Lemma placeholders_template (n : nat) :
  (0 < n)%nat ->
  EventStore.placeholders_loop (Z.of_nat c) (n * c) 0 [] ++ lit ")"
  = placeholderTemplate n c.
Proof using c_pos.
  intros Hn. destruct n as [|n]; [lia|].
  change 0 with (Z.of_nat (0 * c)). rewrite placeholders_loop_rows.
  unfold placeholderTemplate. cbn [seq map concat Nat.eqb app].
  rewrite Join_cons_concat.
  rewrite (map_ext_in
             (fun r => (if Nat.eqb r 0 then [] else lit "),") ++ lit "("
                       ++ Join (map (cellAt r) (seq 0 c)) (lit ","))
             (fun r => lit ")," ++ lit "("
                       ++ Join (map (cellAt r) (seq 0 c)) (lit ","))).
  - rewrite <- ?app_assoc. rewrite close_groups. rewrite map_map.
    unfold placeholderGroup, cellAt. rewrite <- ?app_assoc.
    reflexivity.
  - intros r Hr. apply in_seq in Hr.
    destruct (Nat.eqb_spec r 0); [lia | reflexivity].
Qed.
End Placeholders.

Section PrepareInsertValues.
Context {P M W Tx Result Rows ES : Type}.

Lemma prepareInsertValues_miss (e : EventStore.t P M W Tx Result Rows ES)
    (streamEvents : list (Message P M)) (c : nat) :
  (0 < c)%nat -> streamEvents <> [] ->
  EventStore.preparedInsertPlaceholder e
    !! Z.of_nat (length streamEvents) = None ->
  EventStore.prepareInsertValues e streamEvents (Z.of_nat c)
  = ({| EventStore.persistenceStrategy := EventStore.persistenceStrategy e;
        EventStore.db := EventStore.db e;
        EventStore.messageFactory := EventStore.messageFactory e;
        EventStore.preparedInsertPlaceholder :=
          <[Z.of_nat (length streamEvents) :=
              placeholderTemplate (length streamEvents) c]>
            (EventStore.preparedInsertPlaceholder e);
        EventStore.columns := EventStore.columns e |},
     placeholderTemplate (length streamEvents) c).
Proof.
  intros Hc Hne Hmiss. unfold EventStore.prepareInsertValues.
  destruct (Z.eqb_spec (Z.of_nat (length streamEvents)) 0) as [Hz|_].
  { destruct streamEvents; [congruence | cbn [length] in Hz; lia]. }
  rewrite Hmiss.
  replace (Z.to_nat (Z.of_nat (length streamEvents) * Z.of_nat c))
    with (length streamEvents * c)%nat by lia.
  assert (Hpos : (0 < length streamEvents)%nat).
  { destruct streamEvents; [congruence | cbn [length]; lia]. }
  rewrite (placeholders_template c Hc (length streamEvents) Hpos).
  reflexivity.
Qed.
End PrepareInsertValues.

Lemma cacheCoherent_empty (c : nat) : cacheCoherent c ∅.
Proof.
  intros k v H. rewrite lookup_empty in H. discriminate H.
Qed.

(** X1. On a store whose cache of placeholders is coherent for [c]
    columns, [prepareInsertValues] returns for a list of n >= 1 messages
    the text [($1,...,$c),...,($(n-1)c+1,...,$nc)], from the cache or built
    by its loop, and for the empty list the empty text; the cache stays
    coherent, holds the text under n afterwards, and the other fields of
    the store are untouched. *)
Theorem prepareInsertValues_template
    (P M W Tx Result Rows ES : Type)
    (e : EventStore.t P M W Tx Result Rows ES)
    (streamEvents : list (Message P M)) (c : nat) :
  (0 < c)%nat ->
  cacheCoherent c (EventStore.preparedInsertPlaceholder e) ->
  let e' := fst (EventStore.prepareInsertValues e streamEvents (Z.of_nat c)) in
  let values :=
    snd (EventStore.prepareInsertValues e streamEvents (Z.of_nat c)) in
  values = (if Nat.eqb (length streamEvents) 0 then []
            else placeholderTemplate (length streamEvents) c)
  /\ cacheCoherent c (EventStore.preparedInsertPlaceholder e')
  /\ (streamEvents <> [] ->
      EventStore.preparedInsertPlaceholder e'
        !! Z.of_nat (length streamEvents) = Some values)
  /\ EventStore.persistenceStrategy e' = EventStore.persistenceStrategy e
  /\ EventStore.db e' = EventStore.db e
  /\ EventStore.messageFactory e' = EventStore.messageFactory e
  /\ EventStore.columns e' = EventStore.columns e.
Proof.
  intros Hc Hcache.
  destruct streamEvents as [|msg rest] eqn:Hevents.
  - change (EventStore.prepareInsertValues e [] (Z.of_nat c))
      with (e, @nil rune).
    cbn [fst snd length Nat.eqb].
    split; [reflexivity|]. split; [exact Hcache|].
    split; [intros Hnil; now contradiction Hnil|]. repeat split.
  - rewrite <- Hevents.
    assert (Hne : streamEvents <> []) by (subst; discriminate).
    assert (Hlen : Nat.eqb (length streamEvents) 0 = false)
      by (subst; reflexivity).
    rewrite Hlen.
    destruct (EventStore.preparedInsertPlaceholder e
                !! Z.of_nat (length streamEvents)) as [v|] eqn:Hlook.
    + unfold EventStore.prepareInsertValues.
      destruct (Z.eqb_spec (Z.of_nat (length streamEvents)) 0) as [Hz|_];
        [subst streamEvents; cbn [length] in Hz; lia|].
      rewrite Hlook. cbn [fst snd].
      destruct (Hcache _ _ Hlook) as [_ Hv]. rewrite Nat2Z.id in Hv.
      split; [exact Hv|]. split; [exact Hcache|].
      split; [intros _; exact Hlook|]. repeat split.
    + rewrite (prepareInsertValues_miss e streamEvents c Hc Hne Hlook).
      cbn [fst snd EventStore.preparedInsertPlaceholder
           EventStore.persistenceStrategy EventStore.db
           EventStore.messageFactory EventStore.columns].
      split; [reflexivity|]. split; [|split].
      * intros k v Hk. destruct (decide (Z.of_nat (length streamEvents) = k))
          as [<-|Hneq].
        -- rewrite lookup_insert_eq in Hk. injection Hk as <-.
           rewrite Nat2Z.id. split; [|reflexivity].
           subst streamEvents. cbn [length]. lia.
        -- rewrite lookup_insert_ne in Hk by exact Hneq.
           now apply Hcache.
      * intros _. apply lookup_insert_eq.
      * repeat split.
Qed.

Lemma prepareInsertValues_template_witness :
  let e := fake.store (fun _ => None) None in
  let m := NewDummyMessage [] 1 true 0 in
  snd (EventStore.prepareInsertValues e [m; m] 5)
  = lit "($1,$2,$3,$4,$5),($6,$7,$8,$9,$10)".
Proof.
  intros e m.
  apply (proj1 (prepareInsertValues_template Z bool fake.world unit unit
                  unit unit e [m; m] 5 ltac:(lia) (cacheCoherent_empty 5))).
Defined.

(** X2. [prepareInsertValues] memoizes: called again on the store it
    returned, with a list of the same length, it returns the same text
    and leaves the store as it is, whatever the cache held before. *)
Theorem prepareInsertValues_memoized
    (P M W Tx Result Rows ES : Type)
    (e : EventStore.t P M W Tx Result Rows ES)
    (streamEvents again : list (Message P M)) (lenCols : Z) :
  length again = length streamEvents ->
  let e' := fst (EventStore.prepareInsertValues e streamEvents lenCols) in
  let values := snd (EventStore.prepareInsertValues e streamEvents lenCols) in
  EventStore.prepareInsertValues e' again lenCols = (e', values).
Proof.
  intros Hlen. cbv zeta.
  destruct (EventStore.prepareInsertValues e streamEvents lenCols)
    as [e' values] eqn:Hfirst.
  cbn [fst snd]. unfold EventStore.prepareInsertValues in *. rewrite Hlen.
  destruct (Z.of_nat (length streamEvents) =? 0) eqn:Hz.
  - now injection Hfirst as <- <-.
  - destruct (EventStore.preparedInsertPlaceholder e
                !! Z.of_nat (length streamEvents)) as [v|] eqn:Hlook;
      injection Hfirst as <- <-.
    + now rewrite Hlook.
    + cbn [EventStore.preparedInsertPlaceholder].
      now rewrite lookup_insert_eq.
Qed.

Lemma prepareInsertValues_memoized_witness :
  let e := fake.store (fun _ => None) None in
  let m := NewDummyMessage [] 1 true 0 in
  let m' := NewDummyMessage [Byte.x01] 2 true 9 in
  let e' := fst (EventStore.prepareInsertValues e [m; m] 5) in
  EventStore.prepareInsertValues e' [m'; m] 5
  = (e', lit "($1,$2,$3,$4,$5),($6,$7,$8,$9,$10)").
Proof.
  intros e m m' e'.
  apply (prepareInsertValues_memoized Z bool fake.world unit unit unit unit
           e [m; m] [m'; m] 5 eq_refl).
Defined.

(** ** Appending a batch *)

(** X3. On a store that uses [SingleStreamStrategy] and whose cache is
    coherent, [AppendTo] with n >= 1 messages that all convert sends one
    statement, [INSERT INTO <table> (<columns>) VALUES <n groups of 5
    placeholders>;], with the vector of [PrepareData] as parameters, n * 5
    of them; it returns the verdict of the database as it is, and the
    cache of the store it leaves is coherent. *)
Theorem AppendTo_sends_batch
    (P M W Tx Result Rows ES : Type)
    (json_Marshal : M -> list Byte.byte * option error)
    (quoteIdentifier : gostring -> gostring) (lower : rune -> rune)
    (s : SingleStreamStrategy.t P W)
    (d : EventStore.DB W Tx Result Rows)
    (mf : EventStore.MessageFactory W Rows ES)
    (cache : gmap Z gostring) (cols : gostring)
    (streamName table : gostring) (streamEvents : list (Message P M))
    (w : W) :
  let e : EventStore.t P M W Tx Result Rows ES :=
    {| EventStore.persistenceStrategy :=
         SingleStreamStrategy.asPersistenceStrategy json_Marshal
           quoteIdentifier lower s;
       EventStore.db := d;
       EventStore.messageFactory := mf;
       EventStore.preparedInsertPlaceholder := cache;
       EventStore.columns := cols |} in
  EventStore.tableName e streamName = (table, None) ->
  streamEvents <> [] ->
  cacheCoherent 5 cache ->
  allSucceed json_Marshal s streamEvents w ->
  let sent :=
    EventStore.ExecContext d
      (lit "INSERT INTO " ++ table ++ lit " (" ++ cols ++ lit ") VALUES "
       ++ placeholderTemplate (length streamEvents) 5 ++ lit ";")
      (rows json_Marshal s streamEvents w)
      (converted s streamEvents w) in
  exists e',
    EventStore.AppendTo e streamName streamEvents w
    = ((e', fst sent), snd (snd sent))
    /\ cacheCoherent 5 (EventStore.preparedInsertPlaceholder e')
    /\ length (rows json_Marshal s streamEvents w)
       = (length streamEvents * 5)%nat.
Proof.
  intros e Htable Hne Hcache Hok sent.
  pose proof (prepareInsertValues_template P M W Tx Result Rows ES e
                streamEvents 5 ltac:(lia) Hcache) as Hprep.
  cbv zeta in Hprep.
  destruct Hprep as (Hvalues & Hcache' & _ & _ & Hdb & _ & Hcols).
  exists (fst (EventStore.prepareInsertValues e streamEvents 5)).
  split; [|split; [exact Hcache' | apply rows_length]].
  unfold EventStore.AppendTo. rewrite Htable.
  cbn [EventStore.persistenceStrategy e eventstore.PrepareData
       eventstore.ColumnNames SingleStreamStrategy.asPersistenceStrategy].
  unfold SingleStreamStrategy.PrepareData.
  rewrite (PrepareData_loop_rows json_Marshal s streamEvents [] w Hok).
  cbn [app length SingleStreamStrategy.ColumnNames].
  change (Z.of_nat 5) with 5 in *.
  destruct (EventStore.prepareInsertValues e streamEvents 5)
    as [e' values] eqn:Hprep.
  cbn [fst snd] in *. rewrite Hdb, Hcols, Hvalues.
  destruct streamEvents as [|m0 rest]; [congruence|].
  cbn [length Nat.eqb]. subst sent. cbn [EventStore.db EventStore.columns e].
  destruct (EventStore.ExecContext d _ _ _) as [w2 [r [err|]]]; reflexivity.
Qed.

Lemma AppendTo_sends_batch_witness :
  let m1 := NewDummyMessage [Byte.x01] 7 true 1000 in
  let m2 := NewDummyMessage [Byte.x02] 8 true 2000 in
  exists e' w',
    EventStore.AppendTo (fake.store (fun _ => None) None) (lit "orders")
      [m1; m2] fake.empty = ((e', w'), None)
    /\ fake.received w'
       = [lit "INSERT INTO events_orders (event_id, event_name, payload, metadata, created_at) VALUES ($1,$2,$3,$4,$5),($6,$7,$8,$9,$10);"]
    /\ fake.conversions w' = 2%nat.
Proof.
  intros m1 m2.
  destruct (AppendTo_sends_batch Z bool fake.world unit unit unit unit
              fake.json_Marshal fake.quoteIdentifier (fun r => r)
              {| SingleStreamStrategy.converter := fake.converter |}
              (fake.db (fun _ => None) None) fake.messageFactory ∅
              (Join (eventstore.ColumnNames fake.strategy) (lit ", "))
              (lit "orders") (lit "events_orders") [m1; m2] fake.empty
              eq_refl ltac:(discriminate) (cacheCoherent_empty 5)
              ltac:(repeat split))
    as (e' & Happend & _).
  eexists e', _. split; [exact Happend|]. split; reflexivity.
Defined.

(** X4. On a store that uses [SingleStreamStrategy], when the converter
    or the JSON encoding fails on a message of the batch, [AppendTo]
    returns that error, sends nothing to the database and leaves the
    store as it is: the world is the one the conversions up to that
    message left. *)
Theorem AppendTo_conversion_failure
    (P M W Tx Result Rows ES : Type)
    (json_Marshal : M -> list Byte.byte * option error)
    (quoteIdentifier : gostring -> gostring) (lower : rune -> rune)
    (s : SingleStreamStrategy.t P W)
    (d : EventStore.DB W Tx Result Rows)
    (mf : EventStore.MessageFactory W Rows ES)
    (cache : gmap Z gostring) (cols : gostring)
    (streamName table : gostring) (pre post : list (Message P M))
    (msg : Message P M) (w : W) (err : error) :
  let e : EventStore.t P M W Tx Result Rows ES :=
    {| EventStore.persistenceStrategy :=
         SingleStreamStrategy.asPersistenceStrategy json_Marshal
           quoteIdentifier lower s;
       EventStore.db := d;
       EventStore.messageFactory := mf;
       EventStore.preparedInsertPlaceholder := cache;
       EventStore.columns := cols |} in
  EventStore.tableName e streamName = (table, None) ->
  allSucceed json_Marshal s pre w ->
  failsWith json_Marshal s msg (converted s pre w) err ->
  EventStore.AppendTo e streamName (pre ++ msg :: post) w
  = ((e, converted s (pre ++ [msg]) w), Some err).
Proof.
  intros e Htable Hok Hfail. unfold EventStore.AppendTo. rewrite Htable.
  cbn [EventStore.persistenceStrategy e eventstore.PrepareData
       SingleStreamStrategy.asPersistenceStrategy].
  unfold SingleStreamStrategy.PrepareData.
  rewrite (PrepareData_loop_fails json_Marshal s pre post msg [] w err
             Hok Hfail).
  reflexivity.
Qed.

Lemma AppendTo_conversion_failure_witness :
  let m1 := NewDummyMessage [Byte.x01] 7 true 1000 in
  let bad := NewDummyMessage [Byte.x03] 8 false 3000 in
  let e := fake.store (fun _ => None) None in
  EventStore.AppendTo e (lit "orders") [m1; bad; m1] fake.empty
  = ((e, {| fake.schema := []; fake.openTx := None; fake.received := [];
            fake.conversions := 2 |}),
     Some (Errorf (lit "json: unsupported value"))).
Proof.
  intros m1 bad e.
  apply (AppendTo_conversion_failure Z bool fake.world unit unit unit unit
           fake.json_Marshal fake.quoteIdentifier (fun r => r)
           {| SingleStreamStrategy.converter := fake.converter |}
           (fake.db (fun _ => None) None) fake.messageFactory ∅
           (Join (eventstore.ColumnNames fake.strategy) (lit ", "))
           (lit "orders") (lit "events_orders") [m1] [m1] bad fake.empty
           (Errorf (lit "json: unsupported value"))).
  - reflexivity.
  - repeat split.
  - right. split; reflexivity.
Defined.

(** ** Creating a stream, looking it up, loading it *)

Section CreateProps.
Context {P M W Tx Result Rows ES : Type}.
Variable e : EventStore.t P M W Tx Result Rows ES.

Lemma Create_loop_all (tx : Tx) (queries : list gostring) (w : W) :
  allExecute e queries w ->
  EventStore.Create_loop e tx queries w
  = EventStore.Commit (EventStore.db e) tx (executed e queries w).
Proof.
  revert w. induction queries as [|q rest IH]; intros w Hok.
  - cbn [EventStore.Create_loop executed fold_left].
    destruct (EventStore.Commit _ tx w) as [w1 [err|]]; reflexivity.
  - destruct Hok as [Hq Hrest].
    cbn [EventStore.Create_loop executed fold_left].
    destruct (EventStore.ExecContext _ q [] w) as [w1 [r err]].
    cbn [fst snd] in *. subst err. now apply IH.
Qed.

Lemma Create_loop_stops (tx : Tx) (done rest : list gostring) (q : gostring)
    (w : W) (err : error) :
  allExecute e done w ->
  snd (snd (EventStore.ExecContext (EventStore.db e) q []
              (executed e done w))) = Some err ->
  EventStore.Create_loop e tx (done ++ q :: rest) w
  = (let '(w', errRollback) :=
       EventStore.Rollback (EventStore.db e) tx
         (executed e (done ++ [q]) w) in
     (w', match errRollback with
          | Some errRollback =>
              Some (Errorf (lit "error one: " ++ Error errRollback ++ [10]
                            ++ lit "error two: " ++ Error err))
          | None => Some err
          end)).
Proof.
  revert w. induction done as [|q0 done IH]; intros w Hok Hq.
  - cbn [app EventStore.Create_loop executed fold_left] in *.
    destruct (EventStore.ExecContext _ q [] w) as [w1 [r o]].
    cbn [fst snd] in *. subst o.
    destruct (EventStore.Rollback _ tx w1) as [w2 [er|]]; reflexivity.
  - destruct Hok as [Hq0 Hrest].
    cbn [app EventStore.Create_loop executed fold_left] in *.
    destruct (EventStore.ExecContext _ q0 [] w) as [w1 [r o]].
    cbn [fst snd] in *. subst o. now apply IH.
Qed.
End CreateProps.

(** X5. When the table name resolves, the table does not exist yet and
    the transaction begins, [Create] executes the statements of the schema
    in order up to the first that fails; it then rolls the transaction
    back and returns the error of that statement, or the composite of the
    rollback's error and that error; the statements behind the failing
    one are never sent. *)
Theorem Create_stops_at_first_failure
    (P M W Tx Result Rows ES : Type)
    (e : EventStore.t P M W Tx Result Rows ES)
    (streamName table : gostring) (done rest : list gostring)
    (q : gostring) (w w1 w2 : W) (tx : Tx) (err : error) :
  EventStore.tableName e streamName = (table, None) ->
  EventStore.tableExists e table w = (w1, false) ->
  eventstore.CreateSchema (EventStore.persistenceStrategy e) table
  = done ++ q :: rest ->
  EventStore.BeginTx (EventStore.db e) w1 = (w2, (tx, None)) ->
  allExecute e done w2 ->
  snd (snd (EventStore.ExecContext (EventStore.db e) q []
              (executed e done w2))) = Some err ->
  EventStore.Create e streamName w
  = (let '(w', errRollback) :=
       EventStore.Rollback (EventStore.db e) tx
         (executed e (done ++ [q]) w2) in
     (w', match errRollback with
          | Some errRollback =>
              Some (Errorf (lit "error one: " ++ Error errRollback ++ [10]
                            ++ lit "error two: " ++ Error err))
          | None => Some err
          end)).
Proof.
  intros Htable Hexists Hschema Hbegin Hdone Hq.
  unfold EventStore.Create. rewrite Htable, Hexists, Hschema.
  destruct (Nat.eqb_spec (length (done ++ q :: rest)) 0) as [Hlen|_].
  { rewrite length_app in Hlen. cbn [length] in Hlen. lia. }
  rewrite Hbegin. now apply Create_loop_stops.
Qed.

Lemma Create_stops_at_first_failure_witness :
  exists w' created failing,
    EventStore.Create (fake.store fake.rejectsUniqueIndex None)
      (lit "orders") fake.empty
    = (w', Some (Errorf (lit "pq: could not create unique index")))
    /\ fake.received w' = [created; failing]
    /\ HasPrefix failing (lit "CREATE UNIQUE INDEX") = true.
Proof.
  pose (e := fake.store fake.rejectsUniqueIndex None).
  pose (queries :=
          eventstore.CreateSchema (EventStore.persistenceStrategy e)
            (lit "events_orders")).
  pose proof (Create_stops_at_first_failure Z bool fake.world unit unit
                unit unit e (lit "orders") (lit "events_orders")
                (firstn 1 queries) (skipn 2 queries)
                (nth 1 queries []) fake.empty fake.empty
                {| fake.schema := []; fake.openTx := Some [];
                   fake.received := []; fake.conversions := O |}
                tt (Errorf (lit "pq: could not create unique index"))
                eq_refl eq_refl eq_refl eq_refl
                ltac:(repeat split) eq_refl) as Hcreate.
  eexists _, _, _. split; [exact Hcreate|]. split; reflexivity.
Defined.

(** X6. When the table name resolves, the table does not exist yet, the
    schema has statements, the transaction begins and every statement
    succeeds, [Create] has executed all the statements in order and then
    commits; what it returns is what [Commit] returns. *)
Theorem Create_commits_after_all
    (P M W Tx Result Rows ES : Type)
    (e : EventStore.t P M W Tx Result Rows ES)
    (streamName table : gostring) (w w1 w2 : W) (tx : Tx) :
  let queries :=
    eventstore.CreateSchema (EventStore.persistenceStrategy e) table in
  EventStore.tableName e streamName = (table, None) ->
  EventStore.tableExists e table w = (w1, false) ->
  queries <> [] ->
  EventStore.BeginTx (EventStore.db e) w1 = (w2, (tx, None)) ->
  allExecute e queries w2 ->
  EventStore.Create e streamName w
  = EventStore.Commit (EventStore.db e) tx (executed e queries w2).
Proof.
  intros queries Htable Hexists Hne Hbegin Hall.
  unfold EventStore.Create. rewrite Htable, Hexists. fold queries.
  destruct (Nat.eqb_spec (length queries) 0) as [Hlen|_].
  { destruct queries; [congruence | discriminate Hlen]. }
  rewrite Hbegin. now apply Create_loop_all.
Qed.

Lemma Create_commits_after_all_witness :
  exists w',
    EventStore.Create (fake.store (fun _ => None) None) (lit "orders")
      fake.empty = (w', None)
    /\ length (fake.schema w') = 3%nat
    /\ fake.openTx w' = None.
Proof.
  pose proof (Create_commits_after_all Z bool fake.world unit unit unit unit
                (fake.store (fun _ => None) None) (lit "orders")
                (lit "events_orders") fake.empty fake.empty
                {| fake.schema := []; fake.openTx := Some [];
                   fake.received := []; fake.conversions := O |} tt
                eq_refl eq_refl ltac:(discriminate) eq_refl
                ltac:(repeat split)) as Hcreate.
  eexists. split; [exact Hcreate|]. split; reflexivity.
Defined.

(** X7. [Create] gives up before any statement: when the table name does
    not resolve it returns that error and the database is not touched;
    when the table exists it returns [ErrTableAlreadyExists], whose
    message is "table name could not be empty", after the look-up alone;
    when the schema is empty it returns [ErrNoCreateTableQueries]; when
    the transaction cannot begin it returns that error. *)
Theorem Create_refuses_early
    (P M W Tx Result Rows ES : Type)
    (e : EventStore.t P M W Tx Result Rows ES)
    (streamName : gostring) (w : W) :
  (forall err,
     snd (EventStore.tableName e streamName) = Some err ->
     EventStore.Create e streamName w = (w, Some err))
  /\ (forall table w1,
        EventStore.tableName e streamName = (table, None) ->
        EventStore.tableExists e table w = (w1, true) ->
        EventStore.Create e streamName w = (w1, Some ErrTableAlreadyExists)
        /\ Error ErrTableAlreadyExists = lit "table name could not be empty")
  /\ (forall table w1,
        EventStore.tableName e streamName = (table, None) ->
        EventStore.tableExists e table w = (w1, false) ->
        eventstore.CreateSchema (EventStore.persistenceStrategy e) table = [] ->
        EventStore.Create e streamName w = (w1, Some ErrNoCreateTableQueries))
  /\ (forall table w1 w2 tx err,
        EventStore.tableName e streamName = (table, None) ->
        EventStore.tableExists e table w = (w1, false) ->
        eventstore.CreateSchema (EventStore.persistenceStrategy e) table <> [] ->
        EventStore.BeginTx (EventStore.db e) w1 = (w2, (tx, Some err)) ->
        EventStore.Create e streamName w = (w2, Some err)).
Proof.
  unfold EventStore.Create. split; [|split; [|split]].
  - intros err Herr.
    destruct (EventStore.tableName e streamName) as [table o].
    cbn [snd] in Herr. now subst o.
  - intros table w1 -> ->. split; reflexivity.
  - intros table w1 -> -> ->. reflexivity.
  - intros table w1 w2 tx err -> -> Hne ->.
    destruct (eventstore.CreateSchema _ table); [congruence | reflexivity].
Qed.

Lemma Create_refuses_early_witness :
  let plain := fake.db (fun _ => None) None in
  let failure := Errorf (lit "driver: bad connection") in
  EventStore.Create (fake.storeOf fake.strategy plain) [] fake.empty
  = (fake.empty, Some ErrEmptyStreamName)
  /\ (exists w',
        EventStore.Create (fake.storeOf fake.strategy (fake.existing plain))
          (lit "orders") fake.empty = (w', Some ErrTableAlreadyExists)
        /\ fake.schema w' = [] /\ fake.openTx w' = None)
  /\ EventStore.Create (fake.storeOf fake.noSchema plain) (lit "orders")
       fake.empty = (fake.empty, Some ErrNoCreateTableQueries)
  /\ EventStore.Create
       (fake.storeOf fake.strategy (fake.cannotBegin failure plain))
       (lit "orders") fake.empty = (fake.empty, Some failure).
Proof.
  intros plain failure. split; [|split; [|split]].
  - apply (proj1 (Create_refuses_early Z bool fake.world unit unit unit unit
                    (fake.storeOf fake.strategy plain) [] fake.empty)).
    reflexivity.
  - eexists. split.
    + apply (proj1 (proj2 (Create_refuses_early Z bool fake.world unit unit
                             unit unit
                             (fake.storeOf fake.strategy
                                (fake.existing plain))
                             (lit "orders") fake.empty))
               (lit "events_orders")); reflexivity.
    + split; reflexivity.
  - apply (proj1 (proj2 (proj2 (Create_refuses_early Z bool fake.world unit
                                  unit unit unit
                                  (fake.storeOf fake.noSchema plain)
                                  (lit "orders") fake.empty)))
             (lit "events_orders")); reflexivity.
  - apply (proj2 (proj2 (proj2 (Create_refuses_early Z bool fake.world unit
                                  unit unit unit
                                  (fake.storeOf fake.strategy
                                     (fake.cannotBegin failure plain))
                                  (lit "orders") fake.empty)))
             (lit "events_orders") fake.empty fake.empty tt);
      [reflexivity | reflexivity | discriminate | reflexivity].
Defined.

(** X8. [HasStream] answers true exactly when the table name resolves and
    the look-up in the information schema succeeds with true; a stream
    name that does not resolve is answered false without a query, and an
    error of the look-up is answered false. *)
Theorem HasStream_true_iff
    (P M W Tx Result Rows ES : Type)
    (e : EventStore.t P M W Tx Result Rows ES)
    (streamName : gostring) (w : W) :
  (snd (EventStore.HasStream e streamName w) = true <->
   exists table,
     EventStore.tableName e streamName = (table, None)
     /\ snd (EventStore.QueryRowScan (EventStore.db e)
               (lit "SELECT EXISTS(SELECT 1 FROM information_schema.tables WHERE table_schema = 'public' AND table_name = $1)")
               [anyString table] w) = (true, None))
  /\ (snd (EventStore.tableName e streamName) <> None ->
      EventStore.HasStream e streamName w = (w, false)).
Proof.
  unfold EventStore.HasStream, EventStore.tableExists.
  destruct (EventStore.tableName e streamName) as [table [err|]].
  - split; [|reflexivity]. split; [discriminate|].
    intros (t & Ht & _). discriminate Ht.
  - split; [|intros H; now contradiction H].
    destruct (EventStore.QueryRowScan _ _ _ w) as [w1 [found [err|]]]
      eqn:Hscan; cbn [snd]; split.
    + discriminate.
    + intros (t & Ht & Hq). injection Ht as <-.
      rewrite Hscan in Hq. discriminate Hq.
    + intros ->. exists table. split; [reflexivity|].
      now rewrite Hscan.
    + intros (t & Ht & Hq). injection Ht as <-.
      rewrite Hscan in Hq. cbn [snd] in Hq. congruence.
Qed.

Lemma HasStream_true_iff_witness :
  let plain := fake.db (fun _ => None) None in
  let found := fake.storeOf fake.strategy (fake.existing plain) in
  snd (EventStore.HasStream found (lit "orders") fake.empty) = true
  /\ EventStore.HasStream found [] fake.empty = (fake.empty, false).
Proof.
  intros plain found. split.
  - apply (proj2 (proj1 (HasStream_true_iff Z bool fake.world unit unit unit
                           unit found (lit "orders") fake.empty))).
    exists (lit "events_orders"). split; reflexivity.
  - apply (proj2 (HasStream_true_iff Z bool fake.world unit unit unit unit
                    found [] fake.empty)).
    discriminate.
Defined.

(** X9. [Load] hands out a stream only after the table name resolved to a
    name that is not empty and the query succeeded, and then the stream is
    the one the message factory made of the rows; when the table name does
    not resolve no query is sent, and when the query fails its error is
    returned with a nil stream and the message factory is not called. *)
Theorem Load_stream_origin
    (P M W Tx Result Rows ES : Type) (quoteString : gostring -> gostring)
    (e : EventStore.t P M W Tx Result Rows ES)
    (streamName : gostring) (fromNumber : Z) (count : option Z)
    (matcher : option metadata.Matcher) (w : W) :
  (forall es, fst (snd (EventStore.Load quoteString e streamName fromNumber
                          count matcher w)) = Some es ->
     exists table rows w1,
       EventStore.tableName e streamName = (table, None)
       /\ table <> []
       /\ EventStore.QueryContext (EventStore.db e)
            (fst (EventStore.loadQuery quoteString table fromNumber count
                    matcher))
            (snd (EventStore.loadQuery quoteString table fromNumber count
                    matcher)) w = (w1, (rows, None))
       /\ EventStore.Load quoteString e streamName fromNumber count matcher w
          = EventStore.CreateEventStream (EventStore.messageFactory e)
              rows w1)
  /\ (forall err,
        snd (EventStore.tableName e streamName) = Some err ->
        EventStore.Load quoteString e streamName fromNumber count matcher w
        = (w, (None, Some err)))
  /\ (forall table w1 rows err,
        EventStore.tableName e streamName = (table, None) ->
        EventStore.QueryContext (EventStore.db e)
          (fst (EventStore.loadQuery quoteString table fromNumber count
                  matcher))
          (snd (EventStore.loadQuery quoteString table fromNumber count
                  matcher)) w = (w1, (rows, Some err)) ->
        EventStore.Load quoteString e streamName fromNumber count matcher w
        = (w1, (None, Some err))).
Proof.
  unfold EventStore.Load. split; [|split].
  - intros es Hes.
    destruct (EventStore.tableName e streamName) as [table [err|]] eqn:Htable;
      [discriminate Hes|].
    destruct (EventStore.loadQuery quoteString table fromNumber count matcher)
      as [query params] eqn:Hquery.
    destruct (EventStore.QueryContext _ query params w) as [w1 [rows [err|]]]
      eqn:Hsent; [discriminate Hes|].
    exists table, rows, w1. rewrite Hquery. cbn [fst snd].
    split; [reflexivity|]. split; [|split; [exact Hsent | reflexivity]].
    intros ->. unfold EventStore.tableName in Htable.
    destruct (eventstore.GenerateTableName _ streamName) as [t [o|]];
      [discriminate Htable|].
    destruct (Nat.eqb_spec (length t) 0) as [Hlen|Hlen];
      [discriminate Htable|].
    injection Htable as ->. now contradiction Hlen.
  - intros err Herr.
    destruct (EventStore.tableName e streamName) as [table o].
    cbn [snd] in Herr. now subst o.
  - intros table w1 rows err -> Hquery.
    destruct (EventStore.loadQuery quoteString table fromNumber count matcher)
      as [query params].
    cbn [fst snd] in Hquery. now rewrite Hquery.
Qed.

Lemma Load_stream_origin_witness :
  let plain := fake.db (fun _ => None) None in
  let failure := Errorf (lit "driver: bad connection") in
  EventStore.Load fake.quoteString (fake.storeOf fake.strategy plain) []
    0 None None fake.empty = (fake.empty, (None, Some ErrEmptyStreamName))
  /\ (exists w',
        EventStore.Load fake.quoteString
          (fake.storeOf fake.strategy (fake.cannotQuery failure plain))
          (lit "orders") 1 None None fake.empty
        = (w', (None, Some failure)))
  /\ (exists table,
        EventStore.tableName (fake.storeOf fake.strategy plain)
          (lit "orders") = (table, None) /\ table <> []).
Proof.
  intros plain failure. split; [|split].
  - apply (proj1 (proj2 (Load_stream_origin Z bool fake.world unit unit unit
                           unit fake.quoteString
                           (fake.storeOf fake.strategy plain) []
                           0 None None fake.empty))).
    reflexivity.
  - eexists.
    apply (proj2 (proj2 (Load_stream_origin Z bool fake.world unit unit unit
                           unit fake.quoteString
                           (fake.storeOf fake.strategy
                              (fake.cannotQuery failure plain))
                           (lit "orders") 1 None None fake.empty))
             (lit "events_orders") _ tt failure); reflexivity.
  - destruct (proj1 (Load_stream_origin Z bool fake.world unit unit unit
                       unit fake.quoteString
                       (fake.storeOf fake.strategy plain) (lit "orders")
                       1 None None fake.empty) tt eq_refl)
      as (table & rows & w1 & Htable & Hne & _).
    exists table. split; assumption.
Defined.

(** ** More on table names and parameter vectors *)

Lemma HasPrefix_app (prefix s : gostring) :
  HasPrefix (prefix ++ s) prefix = true.
Proof.
  induction prefix as [|p prefix IH]; [now destruct s|].
  cbn [app HasPrefix]. now rewrite Z.eqb_refl, IH.
Qed.

(** X10. Whatever the stream name, a table name that [GenerateTableName]
    returns consists of characters of [a-z0-9_] only, starts with
    [events_], and is at most 7 runes longer than the stream name. *)
Theorem GenerateTableName_safe (lower : rune -> rune)
    (streamName table : gostring) :
  SingleStreamStrategy.GenerateTableName lower streamName = (table, None) ->
  Forall (fun r => isAllowed r = true) table
  /\ HasPrefix table (lit "events_") = true
  /\ (length table <= 7 + length streamName)%nat.
Proof.
  destruct streamName as [|r rest]; [discriminate|]. intros Hgen.
  destruct (GenerateTableName_cons lower r rest)
    as (name & underscores & Hname & Hfilter & _).
  assert (Htable : table = lit "events_" ++ name) by congruence.
  clear Hgen. subst table.
  assert (Hin : forall x, In x name -> In x
            (List.filter isAllowed
               (SingleStreamStrategy.ToLower lower (r :: rest)))).
  { intros x Hx. rewrite Hfilter. apply in_or_app. now left. }
  split; [|split].
  - apply List.Forall_app. split.
    + repeat constructor.
    + apply List.Forall_forall. intros x Hx.
      apply Hin, List.filter_In in Hx. tauto.
  - apply HasPrefix_app.
  - rewrite length_app. change (length (lit "events_")) with 7%nat.
    assert (length name <= length (r :: rest))%nat; [|lia].
    transitivity (length (name ++ underscores)).
    + rewrite length_app. lia.
    + rewrite <- Hfilter.
      etransitivity; [apply List.filter_length_le|].
      unfold SingleStreamStrategy.ToLower. now rewrite length_map.
Qed.

Lemma GenerateTableName_safe_witness :
  SingleStreamStrategy.GenerateTableName (fun r => r)
    (lit "x; DROP TABLE events_orders; --")
  = (lit "events_xdroptableevents_orders", None)
  /\ Forall (fun r => isAllowed r = true)
       (lit "events_xdroptableevents_orders").
Proof.
  split; [reflexivity|].
  apply (GenerateTableName_safe (fun r => r)
           (lit "x; DROP TABLE events_orders; --")
           (lit "events_xdroptableevents_orders") eq_refl).
Defined.

(** X11. Stream names that are not empty and whose lowercased forms have
    the same characters of [a-z0-9_], in the same order, get the same
    table: the other characters and the case do not tell streams apart. *)
Theorem GenerateTableName_collides (lower : rune -> rune)
    (s1 s2 : gostring) :
  s1 <> [] -> s2 <> [] ->
  List.filter isAllowed (SingleStreamStrategy.ToLower lower s1)
  = List.filter isAllowed (SingleStreamStrategy.ToLower lower s2) ->
  SingleStreamStrategy.GenerateTableName lower s1
  = SingleStreamStrategy.GenerateTableName lower s2.
Proof.
  intros H1 H2 Hsame.
  destruct s1 as [|r1 s1]; [congruence|].
  destruct s2 as [|r2 s2]; [congruence|].
  unfold SingleStreamStrategy.GenerateTableName.
  cbn [length Nat.eqb]. unfold ReplaceAllString at 2 4, regNotAllowed.
  rewrite !replaceAll_ClassPlus by apply Nat.le_0_l.
  rewrite !filter_not_notAllowed, Hsame. reflexivity.
Qed.

Lemma GenerateTableName_collides_witness :
  SingleStreamStrategy.GenerateTableName (fun r => r) (lit "User-Stream!")
  = SingleStreamStrategy.GenerateTableName (fun r => r) (lit "userstream").
Proof.
  apply (GenerateTableName_collides (fun r => r) (lit "User-Stream!")
           (lit "userstream")); [discriminate | discriminate | reflexivity].
Defined.

Section PrepareDataAppend.
Context {P M W : Type}.
Variable json_Marshal : M -> list Byte.byte * option error.
Variable s : SingleStreamStrategy.t P W.

Lemma converted_app (a b : list (Message P M)) (w : W) :
  converted s (a ++ b) w = converted s b (converted s a w).
Proof. unfold converted. apply fold_left_app. Qed.

Lemma allSucceed_app (a b : list (Message P M)) (w : W) :
  allSucceed json_Marshal s (a ++ b) w <->
  allSucceed json_Marshal s a w
  /\ allSucceed json_Marshal s b (converted s a w).
Proof.
  revert w. induction a as [|m a IH]; intros w.
  - cbn. tauto.
  - cbn [app allSucceed converted fold_left]. rewrite IH.
    unfold converted. tauto.
Qed.

Lemma rows_app (a b : list (Message P M)) (w : W) :
  rows json_Marshal s (a ++ b) w
  = rows json_Marshal s a w ++ rows json_Marshal s b (converted s a w).
Proof.
  revert w. induction a as [|m a IH]; intros w; [reflexivity|].
  cbn [app rows converted fold_left]. rewrite IH.
  unfold converted. now rewrite <- app_assoc.
Qed.
End PrepareDataAppend.

(** X12. Preparing two batches one after the other gives the vector of
    the batch put together: when the converter and the encoding succeed
    on [a ++ b], [PrepareData (a ++ b)] returns the vector of [a] followed
    by the vector of [b] prepared in the world that [a] left, and leaves
    the world that preparing [b] there leaves. *)
Theorem PrepareData_app
    (P M W : Type) (json_Marshal : M -> list Byte.byte * option error)
    (s : SingleStreamStrategy.t P W) (a b : list (Message P M)) (w : W) :
  allSucceed json_Marshal s (a ++ b) w ->
  let first := SingleStreamStrategy.PrepareData json_Marshal s a w in
  let second :=
    SingleStreamStrategy.PrepareData json_Marshal s b (fst first) in
  SingleStreamStrategy.PrepareData json_Marshal s (a ++ b) w
  = (fst second, (fst (snd first) ++ fst (snd second), None))
  /\ snd (snd first) = None /\ snd (snd second) = None.
Proof.
  intros Hok first second.
  pose proof Hok as Hboth. apply allSucceed_app in Hboth as [Ha Hb].
  assert (Hfirst : first = (converted s a w,
                            (rows json_Marshal s a w, None))).
  { unfold first, SingleStreamStrategy.PrepareData.
    now rewrite (PrepareData_loop_rows json_Marshal s a [] w Ha). }
  assert (Hsecond : second
            = (converted s b (converted s a w),
               (rows json_Marshal s b (converted s a w), None))).
  { unfold second, SingleStreamStrategy.PrepareData. rewrite Hfirst.
    cbn [fst].
    now rewrite (PrepareData_loop_rows json_Marshal s b [] _ Hb). }
  rewrite Hfirst, Hsecond. cbn [fst snd].
  unfold SingleStreamStrategy.PrepareData.
  rewrite (PrepareData_loop_rows json_Marshal s (a ++ b) [] w Hok).
  cbn [app]. now rewrite rows_app, converted_app.
Qed.

Lemma PrepareData_app_witness :
  let s := {| SingleStreamStrategy.converter := fake.converter |} in
  let m1 := NewDummyMessage [Byte.x01] 7 true 1000 in
  let m2 := NewDummyMessage [Byte.x02] 8 true 2000 in
  let first :=
    SingleStreamStrategy.PrepareData fake.json_Marshal s [m1] fake.empty in
  let second :=
    SingleStreamStrategy.PrepareData fake.json_Marshal s [m2] (fst first) in
  SingleStreamStrategy.PrepareData fake.json_Marshal s [m1; m2] fake.empty
  = (fst second, (fst (snd first) ++ fst (snd second), None)).
Proof.
  intros s m1 m2 first second.
  apply (proj1 (PrepareData_app Z bool fake.world fake.json_Marshal s
                  [m1] [m2] fake.empty ltac:(repeat split))).
Defined.

(** ** Replaying changes on a bank account *)

(** X13. Replaying any list of changes through [Apply] on an account with
    a balance in the range of [uint] leaves the balance plus the credits
    minus the debits, wrapped around modulo 2^64: [Apply] checks neither
    overflow nor overdraft.  The recorded changes and the version of the
    account are not touched. *)
Theorem Apply_replay
    (changes : list (aggregate.Changed BankAccount.event))
    (b : BankAccount.t) :
  0 <= BankAccount.balance b < 2 ^ 64 ->
  let b' := fold_left BankAccount.Apply changes b in
  BankAccount.Balance b'
  = (BankAccount.balance b + netAmount changes) mod 2 ^ 64
  /\ 0 <= BankAccount.Balance b' < 2 ^ 64
  /\ BankAccount.BaseRoot b' = BankAccount.BaseRoot b.
Proof.
  revert b. induction changes as [|change rest IH]; intros b Hrange;
    cbv zeta in *.
  - cbn [fold_left netAmount]. unfold BankAccount.Balance.
    rewrite Z.add_0_r, Z.mod_small by exact Hrange.
    repeat split; lia.
  - cbn [fold_left].
    assert (Hstep :
      0 <= BankAccount.balance (BankAccount.Apply b change) < 2 ^ 64
      /\ BankAccount.BaseRoot (BankAccount.Apply b change)
         = BankAccount.BaseRoot b
      /\ (BankAccount.balance (BankAccount.Apply b change) + netAmount rest)
         mod 2 ^ 64
         = (BankAccount.balance b + netAmount (change :: rest)) mod 2 ^ 64).
    { unfold BankAccount.Apply. cbn [netAmount].
      destruct (aggregate.payload change) as [id | amount | amount |];
        cbn [BankAccount.balance BankAccount.BaseRoot];
        unfold BankAccount.uint;
        (split; [try exact Hrange; apply Z.mod_pos_bound; lia|]);
        (split; [reflexivity|]);
        rewrite ?Zplus_mod_idemp_l; try reflexivity; f_equal; lia. }
    destruct Hstep as (Hr1 & Hbase1 & Hnet).
    destruct (IH _ Hr1) as (Hbal & Hr & Hbase).
    rewrite Hbal, Hnet, Hbase, Hbase1. repeat split; lia.
Qed.

Lemma Apply_replay_witness :
  let changes :=
    [ {| aggregate.aggregateID := lit "a";
         aggregate.payload := BankAccount.AccountCredited 5;
         aggregate.version := 1 |};
      {| aggregate.aggregateID := lit "a";
         aggregate.payload := BankAccount.AccountDebited 6;
         aggregate.version := 2 |} ] in
  BankAccount.Balance (fold_left BankAccount.Apply changes BankAccount.zero)
  = (0 + (5 + (0 - 6))) mod 2 ^ 64
  /\ (0 + (5 + (0 - 6))) mod 2 ^ 64 = 18446744073709551615.
Proof.
  intros changes. split; [|reflexivity].
  exact (proj1 (Apply_replay changes BankAccount.zero
                  ltac:(cbn; lia))).
Defined.

(** ** The slices of [ReadEventStream] *)

(** X14. Whenever [ReadEventStream] returns, its two slices have the same
    length, and next to an error both are nil. *)
Theorem ReadEventStream_aligned
    (Msg St : Type) (stream : EventStream.t Msg St) (fuel : nat)
    (s s' : St) (messages : list Msg) (messageNumbers : list Z)
    (err : option error) :
  goengine.ReadEventStream fuel stream s
  = Some (s', (messages, messageNumbers, err)) ->
  length messages = length messageNumbers
  /\ (err <> None -> messages = [] /\ messageNumbers = []).
Proof.
  intros Hread. unfold goengine.ReadEventStream in Hread.
  destruct (ReadEventStream_loop_inv stream fuel s s' [] [] _ Hread)
    as (yielded & o & Hd & Hlen).
  rewrite (ReadEventStream_loop_drained stream s s' yielded o Hd)
    in Hread by exact Hlen.
  destruct o as [[e|]|e]; injection Hread as <- <- <-;
    cbn [app]; try (split; [reflexivity | now split]).
  split; [now rewrite !length_map|]. intros Hne. now contradiction Hne.
Qed.

Lemma ReadEventStream_aligned_witness :
  length [lit "opened"; lit "credited"] = length [1; 2]
  /\ (@None error <> None ->
      [lit "opened"; lit "credited"] = [] /\ [1; 2] = []).
Proof.
  apply (ReadEventStream_aligned gostring fake.cursor (fake.stream None)
           3 ([(lit "opened", 1, None); (lit "credited", 2, None)], None)
           ([], None)).
  reflexivity.
Defined.

(** ** More on the retry loop *)

Section RetryMore.
Context {W Notification : Type}.
Variable resolve :
  StreamProjector.ProjectionErrorCallback W Notification ->
  option Notification -> error -> W -> W * StreamProjector.errorAction.
Variable s : StreamProjector.t W Notification.
Variable n : option Notification.

Lemma processNotification_loop_error (todo : nat) (w w' : W) (e : error) :
  StreamProjector.processNotification_loop resolve s n todo w
  = (w', Some e) ->
  e = StreamProjector.retriesExhausted
  \/ exists w1 w2,
       StreamProjector.Execute (StreamProjector.executor s) n w1
       = (w2, Some e).
Proof.
  revert w. induction todo as [|todo IH]; intros w Hrun.
  - left. cbn in Hrun. congruence.
  - cbn [StreamProjector.processNotification_loop] in Hrun.
    destruct (StreamProjector.Execute _ n w) as [w1 [err|]] eqn:Hexec;
      [|discriminate Hrun].
    destruct (resolve _ n err w1) as [w2 action].
    destruct action; try (now apply IH in Hrun); try discriminate Hrun;
      injection Hrun as _ <-; right; now exists w, w1.
Qed.
End RetryMore.

(** X15. An error that [processNotification] returns is the error
    [retriesExhausted] or an error that the fold returned for this very
    notification: the projector makes up no other error and returns none
    of the error handler. *)
Theorem processNotification_error_origin
    (W Notification : Type)
    (resolve : StreamProjector.ProjectionErrorCallback W Notification ->
               option Notification -> error ->
               W -> W * StreamProjector.errorAction)
    (s : StreamProjector.t W Notification) (n : option Notification)
    (w w' : W) (e : error) :
  StreamProjector.processNotification resolve s n w = (w', Some e) ->
  e = StreamProjector.retriesExhausted
  \/ exists w1 w2,
       StreamProjector.Execute (StreamProjector.executor s) n w1
       = (w2, Some e).
Proof.
  apply processNotification_loop_error.
Qed.

Lemma processNotification_error_origin_witness :
  Errorf (lit "projection failed") = StreamProjector.retriesExhausted
  \/ exists w1 w2,
       StreamProjector.Execute
         (StreamProjector.executor
            (fake.projector 100 StreamProjector.ProjectionFail)) None w1
       = (w2, Some (Errorf (lit "projection failed"))).
Proof.
  apply (processNotification_error_origin Z unit
           StreamProjector.resolveErrorAction
           (fake.projector 100 StreamProjector.ProjectionFail) None 0 1).
  reflexivity.
Defined.



(** ** Setting up and running a projection *)

(** X17. [projectionExists] answers true exactly when the query
    succeeded, [Next] found a row and [Scan] read true from it without
    error; every failure on the way is answered false.  When the query
    succeeded the rows are closed last, whatever the answer; when it
    failed there are no rows to close. *)
Theorem projectionExists_true_iff
    (W Notification Conn Rows Result : Type)
    (QuoteIdentifier : gostring -> gostring)
    (s : StreamProjectorRun.t W Notification Conn Rows Result)
    (conn : Conn) (w : W) :
  let sent :=
    StreamProjectorRun.ConnQueryContext (StreamProjectorRun.db s) conn
      (lit "SELECT 1 FROM "
       ++ QuoteIdentifier (StreamProjectorRun.projectionTable s)
       ++ lit " WHERE name = $1 LIMIT 1")
      [anyString (StreamProjectorRun.projectionName s)] w in
  let rows := fst (snd sent) in
  let next := StreamProjectorRun.RowsNext (StreamProjectorRun.db s) rows
                (fst sent) in
  let scan := StreamProjectorRun.RowsScan (StreamProjectorRun.db s) rows
                (fst next) in
  (snd (StreamProjectorRun.projectionExists QuoteIdentifier s conn w) = true
   <-> snd (snd sent) = None /\ snd next = true /\ snd scan = (true, None))
  /\ (snd (snd sent) = None ->
      exists w',
        fst (StreamProjectorRun.projectionExists QuoteIdentifier s conn w)
        = fst (StreamProjectorRun.RowsClose (StreamProjectorRun.db s)
                 rows w'))
  /\ (snd (snd sent) <> None ->
      StreamProjectorRun.projectionExists QuoteIdentifier s conn w
      = (fst sent, false)).
Proof.
  intros sent rows next scan.
  unfold StreamProjectorRun.projectionExists. fold sent.
  destruct sent as [w1 [r [err|]]] eqn:Hsent; cbn [fst snd] in *.
  - split; [|split].
    + split; [discriminate | intros [H _]; discriminate H].
    + discriminate.
    + reflexivity.
  - subst rows. fold next.
    destruct next as [w2 more] eqn:Hnext; cbn [fst snd] in *.
    destruct more; cbn [negb].
    + fold scan. destruct scan as [w3 [found [err|]]] eqn:Hscan;
        cbn [fst snd] in *.
      * destruct (StreamProjectorRun.RowsClose _ r w3) as [w4 o] eqn:Hclose.
        cbn [snd fst]. split; [|split].
        -- split; [discriminate | intros (_ & _ & H); discriminate H].
        -- intros _. exists w3. now rewrite Hclose.
        -- intros H. now contradiction H.
      * destruct (StreamProjectorRun.RowsClose _ r w3) as [w4 o] eqn:Hclose.
        cbn [snd fst]. split; [|split].
        -- split; [intros ->; now repeat split
                  | intros (_ & _ & H); now injection H].
        -- intros _. exists w3. now rewrite Hclose.
        -- intros H. now contradiction H.
    + destruct (StreamProjectorRun.RowsClose _ r w2) as [w4 o] eqn:Hclose.
      cbn [snd fst]. split; [|split].
      * split; [discriminate | intros (_ & H & _); discriminate H].
      * intros _. exists w2. now rewrite Hclose.
      * intros H. now contradiction H.
Qed.

Lemma projectionExists_true_iff_witness :
  let known :=
    {| fake.names := [lit "balances"]; fake.openConns := 1;
       fake.openRows := 0; fake.folds := 0 |} in
  snd (StreamProjectorRun.projectionExists fake.quoteIdentifier
         (fake.runner None None) tt known) = true
  /\ StreamProjectorRun.projectionExists fake.quoteIdentifier
       (fake.runner (Some ErrNoDBConnect) None) tt known = (known, false)
  /\ fake.openRows
       (fst (StreamProjectorRun.projectionExists fake.quoteIdentifier
               (fake.runner None None) tt known)) = 0.
Proof.
  intros known. split; [|split].
  - apply (proj2 (proj1 (projectionExists_true_iff fake.projections unit
                           unit bool unit fake.quoteIdentifier
                           (fake.runner None None) tt known))).
    repeat split.
  - apply (proj2 (proj2 (projectionExists_true_iff fake.projections unit
                           unit bool unit fake.quoteIdentifier
                           (fake.runner (Some ErrNoDBConnect) None) tt
                           known))).
    discriminate.
  - destruct (proj1 (proj2 (projectionExists_true_iff fake.projections unit
                              unit bool unit fake.quoteIdentifier
                              (fake.runner None None) tt known)) eq_refl)
      as [w' Hclosed].
    reflexivity.
Defined.

(** X18. [setupProjection] returns the error of [AcquireConn] when no
    connection can be had.  With a connection, it inserts the projection
    row only when [projectionExists] answered false, returns nil or the
    error of that insert, and on every path closes the connection last;
    an error of the close is not returned. *)
Theorem setupProjection_closes
    (W Notification Conn Rows Result : Type)
    (QuoteIdentifier : gostring -> gostring)
    (s : StreamProjectorRun.t W Notification Conn Rows Result) (w : W) :
  (forall w1 conn err,
     StreamProjectorRun.AcquireConn (StreamProjectorRun.db s) w
     = (w1, (conn, Some err)) ->
     StreamProjectorRun.setupProjection QuoteIdentifier s w = (w1, Some err))
  /\ (forall w1 conn,
        StreamProjectorRun.AcquireConn (StreamProjectorRun.db s) w
        = (w1, (conn, None)) ->
        let found :=
          StreamProjectorRun.projectionExists QuoteIdentifier s conn w1 in
        let created :=
          StreamProjectorRun.createProjection QuoteIdentifier s conn
            (fst found) in
        StreamProjectorRun.setupProjection QuoteIdentifier s w
        = (if snd found
           then (fst (StreamProjectorRun.ConnClose (StreamProjectorRun.db s)
                        conn (fst found)), None)
           else (fst (StreamProjectorRun.ConnClose (StreamProjectorRun.db s)
                        conn (fst created)), snd created))).
Proof.
  split.
  - intros w1 conn err Hacq.
    unfold StreamProjectorRun.setupProjection. now rewrite Hacq.
  - intros w1 conn Hacq found created.
    unfold StreamProjectorRun.setupProjection. rewrite Hacq.
    fold found. destruct found as [w2 [|]]; cbn [fst snd] in *.
    + destruct (StreamProjectorRun.ConnClose _ conn w2); reflexivity.
    + fold created. destruct created as [w3 [err|]]; cbn [fst snd];
        destruct (StreamProjectorRun.ConnClose _ conn w3); reflexivity.
Qed.

Lemma setupProjection_closes_witness :
  StreamProjectorRun.setupProjection fake.quoteIdentifier
    (fake.runner None None) fake.noProjections
  = ({| fake.names := [lit "balances"]; fake.openConns := 0;
        fake.openRows := 0; fake.folds := 0 |}, None)
  /\ StreamProjectorRun.setupProjection fake.quoteIdentifier
       (fake.runner (Some ErrNoDBConnect) None) fake.noProjections
     = (fake.noProjections, Some ErrNoDBConnect)
  /\ StreamProjectorRun.setupProjection fake.quoteIdentifier
       (fake.runnerOn (fake.noConn ErrNoDBConnect)) fake.noProjections
     = (fake.noProjections, Some ErrNoDBConnect).
Proof.
  split; [|split].
  - apply (proj2 (setupProjection_closes fake.projections unit unit bool
                    unit fake.quoteIdentifier (fake.runner None None)
                    fake.noProjections)
             {| fake.names := []; fake.openConns := 1; fake.openRows := 0;
                fake.folds := 0 |} tt eq_refl).
  - apply (proj2 (setupProjection_closes fake.projections unit unit bool
                    unit fake.quoteIdentifier
                    (fake.runner (Some ErrNoDBConnect) None)
                    fake.noProjections)
             {| fake.names := []; fake.openConns := 1; fake.openRows := 0;
                fake.folds := 0 |} tt eq_refl).
  - apply (proj1 (setupProjection_closes fake.projections unit unit bool
                    unit fake.quoteIdentifier
                    (fake.runnerOn (fake.noConn ErrNoDBConnect))
                    fake.noProjections)
             fake.noProjections tt ErrNoDBConnect eq_refl).
Defined.

Section RunProps.
Context {W Notification Conn Rows Result : Type}.
Variable QuoteIdentifier : gostring -> gostring.
Variable resolve :
  StreamProjector.ProjectionErrorCallback W Notification ->
  option Notification -> error -> W -> W * StreamProjector.errorAction.
Variable s : StreamProjectorRun.t W Notification Conn Rows Result.

(** An error of the set-up is the error of [AcquireConn] or of the insert
    of the projection row. *)
Lemma setupProjection_error (w w' : W) (e : error) :
  StreamProjectorRun.setupProjection QuoteIdentifier s w = (w', Some e) ->
  (exists w1 conn,
     StreamProjectorRun.AcquireConn (StreamProjectorRun.db s) w
     = (w1, (conn, Some e)))
  \/ (exists conn w1 w2 r,
        StreamProjectorRun.ConnExecContext (StreamProjectorRun.db s) conn
          (lit "INSERT INTO "
           ++ QuoteIdentifier (StreamProjectorRun.projectionTable s)
           ++ lit " (name) VALUES ($1) ON CONFLICT DO NOTHING")
          [anyString (StreamProjectorRun.projectionName s)] w1
        = (w2, (r, Some e))).
Proof.
  unfold StreamProjectorRun.setupProjection.
  destruct (StreamProjectorRun.AcquireConn _ w) as [w1 [conn [err|]]]
    eqn:Hacq.
  - intros H. injection H as _ <-. left. now exists w1, conn.
  - destruct (StreamProjectorRun.projectionExists _ s conn w1)
      as [w2 [|]].
    + destruct (StreamProjectorRun.ConnClose _ conn w2). discriminate.
    + unfold StreamProjectorRun.createProjection.
      destruct (StreamProjectorRun.ConnExecContext _ conn _ _ w2)
        as [w3 [r [err|]]] eqn:Hexec;
        destruct (StreamProjectorRun.ConnClose _ conn w3);
        [|discriminate].
      intros H. injection H as _ <-. right. now exists conn, w2, w3, r.
Qed.
End RunProps.

(** X19. With an expired context [Run] and [RunAndListen] return nil and
    touch neither the database, the fold nor the listener.  When the
    set-up of the projection fails, both return its error and invoke
    neither the fold nor the listener.  Otherwise [Run] is one call of
    [processNotification] with a nil notification in the world the
    set-up left, and [RunAndListen] hands [processNotification] to the
    listener there. *)
Theorem Run_gates
    (W Notification Conn Rows Result : Type)
    (QuoteIdentifier : gostring -> gostring)
    (resolve : StreamProjector.ProjectionErrorCallback W Notification ->
               option Notification -> error ->
               W -> W * StreamProjector.errorAction)
    (s : StreamProjectorRun.t W Notification Conn Rows Result)
    (listener : StreamProjectorRun.Listener W Notification) (w : W) :
  let setup := StreamProjectorRun.setupProjection QuoteIdentifier s w in
  StreamProjectorRun.Run QuoteIdentifier resolve s true w = (w, None)
  /\ StreamProjectorRun.RunAndListen QuoteIdentifier resolve s true
       listener w = (w, None)
  /\ (forall err, snd setup = Some err ->
      StreamProjectorRun.Run QuoteIdentifier resolve s false w
      = (fst setup, Some err)
      /\ StreamProjectorRun.RunAndListen QuoteIdentifier resolve s false
           listener w = (fst setup, Some err))
  /\ (snd setup = None ->
      StreamProjectorRun.Run QuoteIdentifier resolve s false w
      = StreamProjector.processNotification resolve
          (StreamProjectorRun.projector s) None (fst setup)
      /\ StreamProjectorRun.RunAndListen QuoteIdentifier resolve s false
           listener w
         = StreamProjectorRun.Listen listener
             (StreamProjector.processNotification resolve
                (StreamProjectorRun.projector s)) (fst setup)).
Proof.
  intros setup.
  unfold StreamProjectorRun.Run, StreamProjectorRun.RunAndListen.
  fold setup. destruct setup as [w1 [err|]]; cbn [fst snd].
  - split; [reflexivity|]. split; [reflexivity|]. split.
    + intros e H. injection H as <-. split; reflexivity.
    + discriminate.
  - split; [reflexivity|]. split; [reflexivity|]. split.
    + discriminate.
    + intros _. split; reflexivity.
Qed.

Lemma Run_gates_witness :
  let broken := fake.runner (Some ErrNoDBConnect) None in
  let sound := fake.runner None None in
  StreamProjectorRun.Run fake.quoteIdentifier
    StreamProjector.resolveErrorAction broken false fake.noProjections
  = (fake.noProjections, Some ErrNoDBConnect)
  /\ StreamProjectorRun.RunAndListen fake.quoteIdentifier
       StreamProjector.resolveErrorAction sound false
       (fake.listener [Some tt; Some tt; None]) fake.noProjections
     = ({| fake.names := [lit "balances"]; fake.openConns := 0;
           fake.openRows := 0; fake.folds := 3 |}, None).
Proof.
  intros broken sound. split.
  - apply (proj1 (proj2 (proj2 (Run_gates fake.projections unit unit bool
                                  unit fake.quoteIdentifier
                                  StreamProjector.resolveErrorAction broken
                                  (fake.listener []) fake.noProjections)))
             ErrNoDBConnect eq_refl).
  - rewrite (proj2 (proj2 (proj2 (proj2
               (Run_gates fake.projections unit unit bool unit
                  fake.quoteIdentifier StreamProjector.resolveErrorAction
                  sound (fake.listener [Some tt; Some tt; None])
                  fake.noProjections))) eq_refl)).
    vm_compute. reflexivity.
Defined.

(** X20. An error that [Run] returns is the error of [AcquireConn], the
    error of the insert of the projection row, the error
    [retriesExhausted], or an error that the fold returned for the nil
    notification; errors of the existence query, of [Scan] and of closing
    the rows or the connection are never returned. *)
Theorem Run_error_origin
    (W Notification Conn Rows Result : Type)
    (QuoteIdentifier : gostring -> gostring)
    (resolve : StreamProjector.ProjectionErrorCallback W Notification ->
               option Notification -> error ->
               W -> W * StreamProjector.errorAction)
    (s : StreamProjectorRun.t W Notification Conn Rows Result)
    (expired : bool) (w w' : W) (e : error) :
  StreamProjectorRun.Run QuoteIdentifier resolve s expired w
  = (w', Some e) ->
  (exists w1 conn,
     StreamProjectorRun.AcquireConn (StreamProjectorRun.db s) w
     = (w1, (conn, Some e)))
  \/ (exists conn w1 w2 r,
        StreamProjectorRun.ConnExecContext (StreamProjectorRun.db s) conn
          (lit "INSERT INTO "
           ++ QuoteIdentifier (StreamProjectorRun.projectionTable s)
           ++ lit " (name) VALUES ($1) ON CONFLICT DO NOTHING")
          [anyString (StreamProjectorRun.projectionName s)] w1
        = (w2, (r, Some e)))
  \/ e = StreamProjector.retriesExhausted
  \/ (exists w1 w2,
        StreamProjector.Execute
          (StreamProjector.executor (StreamProjectorRun.projector s))
          None w1 = (w2, Some e)).
Proof.
  unfold StreamProjectorRun.Run. destruct expired; [discriminate|].
  destruct (StreamProjectorRun.setupProjection QuoteIdentifier s w)
    as [w1 [err|]] eqn:Hsetup.
  - intros H. injection H as _ <-.
    destruct (setupProjection_error QuoteIdentifier s w w1 err Hsetup)
      as [H | H]; [now left | right; now left].
  - intros Hrun. right. right.
    exact (processNotification_loop_error resolve _ None _ w1 w' e Hrun).
Qed.

Lemma Run_error_origin_witness :
  let failure := Errorf (lit "handler failed") in
  StreamProjectorRun.Run fake.quoteIdentifier
    StreamProjector.resolveErrorAction (fake.runner None (Some failure))
    false fake.noProjections
  = ({| fake.names := [lit "balances"]; fake.openConns := 0;
        fake.openRows := 0; fake.folds := 1 |}, Some failure)
  /\ exists w1 w2,
       StreamProjector.Execute (fake.counting (Some failure)) None w1
       = (w2, Some failure).
Proof.
  intros failure. split; [reflexivity|].
  destruct (Run_error_origin fake.projections unit unit bool unit
              fake.quoteIdentifier StreamProjector.resolveErrorAction
              (fake.runner None (Some failure)) false fake.noProjections
              _ failure eq_refl)
    as [(w1 & conn & H) | [(conn & w1 & w2 & r & H) | [H | H]]].
  - discriminate H.
  - exfalso. cbn in H. discriminate H.
  - discriminate H.
  - exact H.
Defined.
